(** * Driver statistics of the fantasy F1 application

    A shallow embedding of [app/models/driver.py] and the properties of its
    statistics bookkeeping.

    Numbers.  Python's [int] is embedded as [Z].  Python's [float] is embedded
    as a real number ([R]): the arithmetic is the exact one, binary64 rounding
    is not modelled, and neither is the [OverflowError] Python raises when an
    integer or a result leaves the range of the floats.  A value the source
    documents as "int/float" (points, price) is a real as well.  The theorems
    that say a call returns, or that a score is recomputed, are stated for
    positions of a size at which no intermediate result can leave that range
    (see [moderate]).

    Effects.  A method mutates the driver in place and may raise.  A method is
    a function from the driver before the call to the driver after it and
    either the exception raised or the value returned; what was assigned
    before an exception stays assigned, as in Python. *)

From Stdlib Require Import ZArith List String Bool Reals Lra Lia.
Import ListNotations.

Local Open Scope Z_scope.

(** ** The fragment of Python the class relies on *)

Module Py.

(** The exceptions the operations of the class can raise. *)
Inductive exn : Set :=
| TypeError
| ZeroDivisionError.

(** [int / int]: true division.  The quotient is the exact one: the
    [OverflowError] of a quotient beyond the range of the floats is not
    modelled. *)
Definition truediv_int (a b : Z) : exn + R :=
  if b =? 0 then inl ZeroDivisionError else inr (IZR a / IZR b)%R.

(** [float / int]. *)
Definition truediv_float_int (a : R) (b : Z) : exn + R :=
  if b =? 0 then inl ZeroDivisionError else inr (a / IZR b)%R.

(** [float / float]. *)
Definition truediv (a b : R) : exn + R :=
  if Req_dec_T b 0 then inl ZeroDivisionError else inr (a / b)%R.

(** [len(l)]. *)
Definition len {A : Type} (l : list A) : Z := Z.of_nat (List.length l).

(** [sum(l)] over a list whose items are [int] or [None]: the running total
    starts at [0]; adding [None] to a number is a [TypeError]. *)
Fixpoint sum_from (acc : Z) (l : list (option Z)) : exn + Z :=
  match l with
  | [] => inr acc
  | None :: _ => inl TypeError
  | Some x :: l' => sum_from (acc + x) l'
  end.

Definition sum (l : list (option Z)) : exn + Z := sum_from 0 l.

(** [sum((x - m) ** 2 for x in l)]: the generator is consumed from the left;
    [None - m] is a [TypeError].  Differences, squares and the total are the
    exact ones: the [OverflowError] of a square beyond the range of the
    floats is not modelled. *)
Fixpoint sum_sq_dev_from (acc : R) (m : R) (l : list (option Z)) : exn + R :=
  match l with
  | [] => inr acc
  | None :: _ => inl TypeError
  | Some x :: l' => sum_sq_dev_from (acc + (IZR x - m) ^ 2)%R m l'
  end.

Definition sum_sq_dev (m : R) (l : list (option Z)) : exn + R :=
  sum_sq_dev_from 0%R m l.

(** [x ** 0.5] for a float [x] that is not negative. *)
Definition pow_half (x : R) : R := sqrt x.

(** [max(a, b)]: the first argument unless the second is greater. *)
Definition max (a b : R) : R := if Rlt_dec a b then b else a.

(** Truth value of a position: [None] and [0] are false. *)
Definition truthy (p : option Z) : bool :=
  match p with
  | None => false
  | Some z => negb (z =? 0)
  end.

(** [p == k] for an integer literal [k]; [None == k] is [False]. *)
Definition eq_int (p : option Z) (k : Z) : bool :=
  match p with
  | None => false
  | Some z => z =? k
  end.

(** [p <= k] for an integer literal [k]; ordering [None] against a number
    is a [TypeError]. *)
Definition le_int (p : option Z) (k : Z) : exn + bool :=
  match p with
  | None => inl TypeError
  | Some z => inr (z <=? k)
  end.

(** Truth value of a list: the empty list is false. *)
Definition truthy_list {A : Type} (l : list A) : bool :=
  match l with
  | [] => false
  | _ :: _ => true
  end.

(** Rounding of a real to the nearest integer, ties to the even one.  The
    tie is decided on the exact real, where Python decides it on the binary64
    value; no property below depends on a rounded value. *)
Definition round_half_even (x : R) : Z :=
  let f := Int_part x in
  let r := (x - IZR f)%R in
  if Rlt_dec r (1 / 2) then f
  else if Rlt_dec (1 / 2) r then f + 1
  else if Z.even f then f else f + 1.

(** [round(x, ndigits)]. *)
Definition round (x : R) (ndigits : nat) : R :=
  (IZR (round_half_even (x * 10 ^ ndigits)) / 10 ^ ndigits)%R.

End Py.

(** ** The state of a driver *)

(** The dictionary [self.stats]; its five keys are fixed by [__init__]. *)
Record Stats : Type := mkStats {
  races_completed : Z;
  races_dnf : Z;
  points_history : list R;
  position_history : list (option Z);
  total_races : Z
}.

Record Driver : Type := mkDriver {
  id : Z;
  name : string;
  number : Z;
  team : string;
  nationality : string;
  price : R;
  season : option Z;
  season_points : R;
  wins : Z;
  podiums : Z;
  pole_positions : Z;
  reliability : R;
  consistency : R;
  average_position : R;
  last_race_position : option Z;
  last_race_points : R;
  stats : Stats
}.

(** Assignments to one key of [self.stats]. *)

Definition set_races_completed (v : Z) (s : Stats) : Stats :=
  mkStats v (races_dnf s) (points_history s) (position_history s) (total_races s).

Definition set_races_dnf (v : Z) (s : Stats) : Stats :=
  mkStats (races_completed s) v (points_history s) (position_history s) (total_races s).

Definition set_points_history (v : list R) (s : Stats) : Stats :=
  mkStats (races_completed s) (races_dnf s) v (position_history s) (total_races s).

Definition set_position_history (v : list (option Z)) (s : Stats) : Stats :=
  mkStats (races_completed s) (races_dnf s) (points_history s) v (total_races s).

Definition set_total_races (v : Z) (s : Stats) : Stats :=
  mkStats (races_completed s) (races_dnf s) (points_history s) (position_history s) v.

(** Assignments to one attribute of [self]. *)

Definition set_season_points (v : R) (d : Driver) : Driver :=
  mkDriver (id d) (name d) (number d) (team d) (nationality d) (price d) (season d)
    v (wins d) (podiums d) (pole_positions d)
    (reliability d) (consistency d) (average_position d)
    (last_race_position d) (last_race_points d) (stats d).

Definition set_wins (v : Z) (d : Driver) : Driver :=
  mkDriver (id d) (name d) (number d) (team d) (nationality d) (price d) (season d)
    (season_points d) v (podiums d) (pole_positions d)
    (reliability d) (consistency d) (average_position d)
    (last_race_position d) (last_race_points d) (stats d).

Definition set_podiums (v : Z) (d : Driver) : Driver :=
  mkDriver (id d) (name d) (number d) (team d) (nationality d) (price d) (season d)
    (season_points d) (wins d) v (pole_positions d)
    (reliability d) (consistency d) (average_position d)
    (last_race_position d) (last_race_points d) (stats d).

Definition set_pole_positions (v : Z) (d : Driver) : Driver :=
  mkDriver (id d) (name d) (number d) (team d) (nationality d) (price d) (season d)
    (season_points d) (wins d) (podiums d) v
    (reliability d) (consistency d) (average_position d)
    (last_race_position d) (last_race_points d) (stats d).

Definition set_reliability (v : R) (d : Driver) : Driver :=
  mkDriver (id d) (name d) (number d) (team d) (nationality d) (price d) (season d)
    (season_points d) (wins d) (podiums d) (pole_positions d)
    v (consistency d) (average_position d)
    (last_race_position d) (last_race_points d) (stats d).

Definition set_consistency (v : R) (d : Driver) : Driver :=
  mkDriver (id d) (name d) (number d) (team d) (nationality d) (price d) (season d)
    (season_points d) (wins d) (podiums d) (pole_positions d)
    (reliability d) v (average_position d)
    (last_race_position d) (last_race_points d) (stats d).

Definition set_average_position (v : R) (d : Driver) : Driver :=
  mkDriver (id d) (name d) (number d) (team d) (nationality d) (price d) (season d)
    (season_points d) (wins d) (podiums d) (pole_positions d)
    (reliability d) (consistency d) v
    (last_race_position d) (last_race_points d) (stats d).

Definition set_last_race_position (v : option Z) (d : Driver) : Driver :=
  mkDriver (id d) (name d) (number d) (team d) (nationality d) (price d) (season d)
    (season_points d) (wins d) (podiums d) (pole_positions d)
    (reliability d) (consistency d) (average_position d)
    v (last_race_points d) (stats d).

Definition set_last_race_points (v : R) (d : Driver) : Driver :=
  mkDriver (id d) (name d) (number d) (team d) (nationality d) (price d) (season d)
    (season_points d) (wins d) (podiums d) (pole_positions d)
    (reliability d) (consistency d) (average_position d)
    (last_race_position d) v (stats d).

Definition set_stats (v : Stats) (d : Driver) : Driver :=
  mkDriver (id d) (name d) (number d) (team d) (nationality d) (price d) (season d)
    (season_points d) (wins d) (podiums d) (pole_positions d)
    (reliability d) (consistency d) (average_position d)
    (last_race_position d) (last_race_points d) v.

(** ** Methods as state transformers that may raise *)

Definition M (A : Type) : Type := Driver -> Driver * (Py.exn + A).

Definition ret {A : Type} (a : A) : M A := fun d => (d, inr a).

Definition bind {A B : Type} (m : M A) (k : A -> M B) : M B :=
  fun d =>
    let (d', r) := m d in
    match r with
    | inl e => (d', inl e)
    | inr a => k a d'
    end.

(** The driver the method runs on. *)
Definition self : M Driver := fun d => (d, inr d).

(** An assignment to the driver. *)
Definition assign (f : Driver -> Driver) : M unit := fun d => (f d, inr tt).

(** An expression that does not touch the driver and may raise. *)
Definition eval {A : Type} (r : Py.exn + A) : M A := fun d => (d, r).

Declare Scope py_scope.
Delimit Scope py_scope with py.
Notation "x <- m ;; k" := (bind m (fun x => k))
  (at level 61, m at next level, right associativity) : py_scope.
Notation "m ;; k" := (bind m (fun _ => k))
  (at level 61, right associativity) : py_scope.
Local Open Scope py_scope.

(** [Driver.__init__]. *)
Definition __init__ (id : Z) (name : string) (number : Z) (team nationality : string)
    (price : R) (season : option Z) : Driver :=
  mkDriver id name number team nationality price season
    0%R 0 0 0
    0%R 0%R 0%R
    None 0%R
    (mkStats 0 0 [] [] 0).

(** [Driver.add_points]. *)
Definition add_points (points : R) : M unit :=
  assign (fun d => set_season_points (season_points d + points)%R d) ;;
  assign (fun d => set_stats (set_points_history (points_history (stats d) ++ [points]) (stats d)) d).

(** [Driver.calculate_reliability]. *)
Definition calculate_reliability : M R :=
  d <- self ;;
  (if total_races (stats d) >? 0 then
     r <- eval (Py.truediv_int (races_completed (stats d)) (total_races (stats d))) ;;
     assign (set_reliability r)
   else ret tt) ;;
  d <- self ;;
  ret (reliability d).

(** [Driver.calculate_consistency]. *)
Definition calculate_consistency : M R :=
  d <- self ;;
  if negb (Py.truthy_list (position_history (stats d)))
     || (Py.len (position_history (stats d)) <? 2)
  then
    assign (set_consistency 0%R) ;;
    d <- self ;; ret (consistency d)
  else
    let positions := position_history (stats d) in
    total <- eval (Py.sum positions) ;;
    mean_position <- eval (Py.truediv_int total (Py.len positions)) ;;
    squares <- eval (Py.sum_sq_dev mean_position positions) ;;
    variance <- eval (Py.truediv_float_int squares (Py.len positions)) ;;
    let std_dev := Py.pow_half variance in
    (if Req_dec_T mean_position 0 then
       assign (set_consistency 0%R)
     else
       cv <- eval (Py.truediv std_dev mean_position) ;;
       assign (set_consistency (Py.max 0 (1 - cv / 10)))) ;;
    d <- self ;; ret (consistency d).

(** [Driver.set_race_result]. *)
Definition set_race_result (position : option Z) (points : R) (dnf : bool) : M unit :=
  assign (set_last_race_position position) ;;
  assign (set_last_race_points points) ;;
  assign (fun d => set_stats
    (set_position_history (position_history (stats d) ++ [position]) (stats d)) d) ;;
  assign (fun d => set_stats (set_total_races (total_races (stats d) + 1) (stats d)) d) ;;
  (if dnf then
     assign (fun d => set_stats (set_races_dnf (races_dnf (stats d) + 1) (stats d)) d)
   else
     assign (fun d => set_stats
       (set_races_completed (races_completed (stats d) + 1) (stats d)) d)) ;;
  podium <- (if Py.truthy position then eval (Py.le_int position 3) else ret false) ;;
  (if podium then assign (fun d => set_podiums (podiums d + 1) d) else ret tt) ;;
  (if Py.eq_int position 1 then assign (fun d => set_wins (wins d + 1) d)
   else ret tt) ;;
  add_points points ;;
  calculate_reliability ;;
  calculate_consistency ;;
  ret tt.

(** [Driver.add_pole_position]. *)
Definition add_pole_position : M unit :=
  assign (fun d => set_pole_positions (pole_positions d + 1) d).

(** [Driver.get_average_position]. *)
Definition get_average_position : M R :=
  d <- self ;;
  if negb (Py.truthy_list (position_history (stats d))) then
    assign (set_average_position 0%R) ;;
    d <- self ;; ret (average_position d)
  else
    total <- eval (Py.sum (position_history (stats d))) ;;
    mean <- eval (Py.truediv_int total (Py.len (position_history (stats d)))) ;;
    assign (set_average_position mean) ;;
    d <- self ;; ret (average_position d).

(** The dictionary [to_dict] builds.  Its lists are the driver's own list
    objects, not copies; as values they are the histories at the time of the
    call. *)
Record DriverDict : Type := mkDriverDict {
  dict_id : Z;
  dict_name : string;
  dict_number : Z;
  dict_team : string;
  dict_nationality : string;
  dict_price : R;
  dict_season : option Z;
  dict_season_points : R;
  dict_wins : Z;
  dict_podiums : Z;
  dict_pole_positions : Z;
  dict_reliability : R;
  dict_consistency : R;
  dict_average_position : R;
  dict_last_race_position : option Z;
  dict_last_race_points : R;
  dict_stats : Stats
}.

(** [Driver.to_dict].  The items of the dictionary display are evaluated in
    order; the only one with an effect is the call of [get_average_position]. *)
Definition to_dict : M DriverDict :=
  d <- self ;;
  average <- get_average_position ;;
  d' <- self ;;
  ret (mkDriverDict (id d) (name d) (number d) (team d) (nationality d) (price d)
         (season d) (season_points d) (wins d) (podiums d) (pole_positions d)
         (Py.round (reliability d) 3) (Py.round (consistency d) 3)
         (Py.round average 2)
         (last_race_position d') (last_race_points d')
         (mkStats (races_completed (stats d')) (races_dnf (stats d'))
            (points_history (stats d')) (position_history (stats d'))
            (total_races (stats d')))).

(** ** Sequences of calls *)

(** A call of one of the public operations on an existing driver. *)
Inductive Op : Type :=
| AddPoints (points : R)
| SetRaceResult (position : option Z) (points : R) (dnf : bool)
| AddPolePosition
| Serialize.

(** What a call gives back: [None], or the dictionary of [to_dict]. *)
Inductive value : Type :=
| VNone
| VDict (snapshot : DriverDict).

Definition call (o : Op) : M value :=
  match o with
  | AddPoints points => add_points points ;; ret VNone
  | SetRaceResult position points dnf => set_race_result position points dnf ;; ret VNone
  | AddPolePosition => add_pole_position ;; ret VNone
  | Serialize => snapshot <- to_dict ;; ret (VDict snapshot)
  end.

(** The driver after a call, whether it returned or raised. *)
Definition exec (o : Op) (d : Driver) : Driver := fst (call o d).

(** What the call did: the exception raised, or the value returned. *)
Definition outcome (o : Op) (d : Driver) : Py.exn + value := snd (call o d).

(** The driver after a sequence of calls.  A caller that catches an exception
    goes on with the driver as the failed call left it. *)
Definition run (ops : list Op) (d : Driver) : Driver :=
  fold_left (fun d o => exec o d) ops d.

(** ** The configuration module, [app/config.py]

    The module reads the environment when it is imported: each class body
    runs once, in order, and may raise.  [os.environ] is a read-only mapping
    from strings to strings.  [int] applied to a string is a parameter
    [int_of_str] (its answer [None] stands for [ValueError]); nothing is
    assumed about it. *)

Module AppConfig.

Local Open Scope string_scope.

Inductive exn : Set :=
| ValueError
| TypeError
| KeyError.

(** The values the class attributes hold. *)
Inductive value : Set :=
| VNone
| VBool (b : bool)
| VInt (z : Z)
| VStr (s : string)
| VTimedelta (days : Z).

(** Truth value, as [not x] tests it. *)
Definition truthy (v : value) : bool :=
  match v with
  | VNone => false
  | VBool b => b
  | VInt z => negb (z =? 0)%Z
  | VStr s => negb (s =? "")
  | VTimedelta days => negb (days =? 0)%Z
  end.

Definition environ : Type := string -> option string.

(** [os.environ.get(key, default)]; the default of [default] is [None]. *)
Definition environ_get (e : environ) (key : string) (default : value) : value :=
  match e key with
  | Some s => VStr s
  | None => default
  end.

(** [int(x)]. *)
Definition int (int_of_str : string -> option Z) (x : value) : exn + value :=
  match x with
  | VStr s =>
      match int_of_str s with
      | Some z => inr (VInt z)
      | None => inl ValueError
      end
  | VInt z => inr (VInt z)
  | VBool b => inr (VInt (if b then 1 else 0))
  | VNone | VTimedelta _ => inl TypeError
  end.

(** A dictionary with string keys, as an association list in the order of
    the display; no key is written twice in this module. *)
Fixpoint lookup {A : Type} (key : string) (l : list (string * A)) : option A :=
  match l with
  | [] => None
  | (k, v) :: l' => if (k =? key)%string then Some v else lookup key l'
  end.

(** [d.get(key, default)] and [d[key]]. *)
Definition dict_get {A : Type} (d : list (string * A)) (key : string) (default : A) : A :=
  match lookup key d with
  | Some v => v
  | None => default
  end.

Definition dict_item {A : Type} (d : list (string * A)) (key : string) : exn + A :=
  match lookup key d with
  | Some v => inr v
  | None => inl KeyError
  end.

(** A class: its name and the attributes its body assigns; a subclass has
    its base class as well. *)
Inductive class : Set :=
| Class (name : string) (attrs : list (string * value))
| Subclass (name : string) (base : class) (attrs : list (string * value)).

(** Attribute lookup: the class itself, then its base. *)
Fixpoint getattr (c : class) (key : string) : option value :=
  match c with
  | Class _ attrs => lookup key attrs
  | Subclass _ base attrs =>
      match lookup key attrs with
      | Some v => Some v
      | None => getattr base key
      end
  end.

(** The body of [class Config]. *)
Definition class_Config (int_of_str : string -> option Z) (e : environ) : exn + class :=
  match int int_of_str (environ_get e "MAIL_PORT" (VInt 587)) with
  | inl ex => inl ex
  | inr mail_port =>
      inr (Class "Config"
        [ ("APP_NAME", VStr "Fantasy F1");
          ("DEBUG", VBool false);
          ("TESTING", VBool false);
          ("SECRET_KEY",
            environ_get e "SECRET_KEY" (VStr "dev-secret-key-change-in-production"));
          ("SESSION_COOKIE_SECURE", VBool true);
          ("SESSION_COOKIE_HTTPONLY", VBool true);
          ("SESSION_COOKIE_SAMESITE", VStr "Lax");
          ("PERMANENT_SESSION_LIFETIME", VTimedelta 7);
          ("SQLALCHEMY_DATABASE_URI",
            environ_get e "DATABASE_URL" (VStr "sqlite:///fantasy_f1.db"));
          ("SQLALCHEMY_TRACK_MODIFICATIONS", VBool false);
          ("SQLALCHEMY_ECHO", VBool false);
          ("API_TITLE", VStr "Fantasy F1 API");
          ("API_VERSION", VStr "1.0.0");
          ("API_DESCRIPTION", VStr "API for Fantasy Formula 1 application");
          ("CACHE_TYPE", environ_get e "CACHE_TYPE" (VStr "simple"));
          ("CACHE_DEFAULT_TIMEOUT", VInt 300);
          ("LOG_LEVEL", environ_get e "LOG_LEVEL" (VStr "INFO"));
          ("LOG_FILE", environ_get e "LOG_FILE" (VStr "app.log"));
          ("LOG_MAX_BYTES", VInt 10485760);
          ("LOG_BACKUP_COUNT", VInt 10);
          ("F1_API_BASE_URL", VStr "https://api.formula1.com");
          ("F1_API_TIMEOUT", VInt 30);
          ("ITEMS_PER_PAGE", VInt 20);
          ("MAX_ITEMS_PER_PAGE", VInt 100);
          ("MAIL_SERVER", environ_get e "MAIL_SERVER" VNone);
          ("MAIL_PORT", mail_port);
          ("MAIL_USE_TLS", environ_get e "MAIL_USE_TLS" (VBool true));
          ("MAIL_USERNAME", environ_get e "MAIL_USERNAME" VNone);
          ("MAIL_PASSWORD", environ_get e "MAIL_PASSWORD" VNone);
          ("MAIL_DEFAULT_SENDER",
            environ_get e "MAIL_DEFAULT_SENDER" (VStr "noreply@fantasy-f1.com")) ])
  end.

(** The body of [class DevelopmentConfig(Config)]. *)
Definition class_DevelopmentConfig (e : environ) (Config : class) : class :=
  Subclass "DevelopmentConfig" Config
    [ ("DEBUG", VBool true);
      ("SQLALCHEMY_ECHO", VBool true);
      ("SESSION_COOKIE_SECURE", VBool false);
      ("SECRET_KEY", environ_get e "SECRET_KEY" (VStr "dev-secret-key")) ].

(** The body of [class TestingConfig(Config)]. *)
Definition class_TestingConfig (Config : class) : class :=
  Subclass "TestingConfig" Config
    [ ("TESTING", VBool true);
      ("SQLALCHEMY_DATABASE_URI", VStr "sqlite:///:memory:");
      ("SECRET_KEY", VStr "test-secret-key");
      ("WTF_CSRF_ENABLED", VBool false) ].

(** The body of [class ProductionConfig(Config)]; it raises when the secret
    key it read is not true. *)
Definition class_ProductionConfig (e : environ) (Config : class) : exn + class :=
  let SECRET_KEY := environ_get e "SECRET_KEY" VNone in
  if negb (truthy SECRET_KEY) then inl ValueError
  else
    inr (Subclass "ProductionConfig" Config
      [ ("DEBUG", VBool false);
        ("SESSION_COOKIE_SECURE", VBool true);
        ("SECRET_KEY", SECRET_KEY) ]).

(** The names the module binds once imported. *)
Record module : Set := mkModule {
  Config : class;
  DevelopmentConfig : class;
  TestingConfig : class;
  ProductionConfig : class;
  config : list (string * class)
}.

(** Importing the module: the class bodies run in the order of the file,
    then the dictionary [config] is built. *)
Definition import (int_of_str : string -> option Z) (e : environ) : exn + module :=
  match class_Config int_of_str e with
  | inl ex => inl ex
  | inr Config =>
      let DevelopmentConfig := class_DevelopmentConfig e Config in
      let TestingConfig := class_TestingConfig Config in
      match class_ProductionConfig e Config with
      | inl ex => inl ex
      | inr ProductionConfig =>
          inr (mkModule Config DevelopmentConfig TestingConfig ProductionConfig
                 [ ("development", DevelopmentConfig);
                   ("testing", TestingConfig);
                   ("production", ProductionConfig);
                   ("default", DevelopmentConfig) ])
      end
  end.

(** [get_config(env)], called on the imported module with the environment
    of the time of the call. *)
Definition get_config (m : module) (e : environ) (env : option string) : exn + class :=
  let env :=
    match env with
    | None =>
        match e "FLASK_ENV" with
        | Some s => s
        | None => "development"
        end
    | Some s => s
    end in
  match dict_item (config m) "default" with
  | inl ex => inl ex
  | inr default => inr (dict_get (config m) env default)
  end.

(** An environment that sets SECRET_KEY and nothing else. *)
Definition only_secret_key : environ :=
  fun key => if key =? "SECRET_KEY" then Some "s3cret" else None.

End AppConfig.


(** ** Definitions used to state the properties *)

(** [sum(l)] over a list of floats: the running total starts at [0]. *)
Definition Rsum (l : list R) : R := fold_left Rplus l 0%R.

(** The driver [set_race_result] hands to [calculate_consistency]: the record
    of the race, the counters, the points and the reliability are in place. *)
Definition recorded (position : option Z) (points : R) (dnf : bool) (d : Driver) : Driver :=
  let total := total_races (stats d) + 1 in
  let completed := if dnf then races_completed (stats d) else races_completed (stats d) + 1 in
  let podium := match position with
                | Some z => negb (z =? 0) && (z <=? 3)
                | None => false
                end in
  mkDriver (id d) (name d) (number d) (team d) (nationality d) (price d) (season d)
    (season_points d + points)%R
    (if Py.eq_int position 1 then wins d + 1 else wins d)
    (if podium then podiums d + 1 else podiums d)
    (pole_positions d)
    (if total >? 0 then (IZR completed / IZR total)%R else reliability d)
    (consistency d) (average_position d)
    position points
    (mkStats completed
       (if dnf then races_dnf (stats d) + 1 else races_dnf (stats d))
       (points_history (stats d) ++ [points])
       (position_history (stats d) ++ [position])
       total).

(** The positions of a history when all of them are integers. *)
Fixpoint all_ints (l : list (option Z)) : option (list Z) :=
  match l with
  | [] => Some []
  | None :: _ => None
  | Some z :: l' =>
      match all_ints l' with
      | Some zs => Some (z :: zs)
      | None => None
      end
  end.

(** The quantities [calculate_consistency] computes from a history of integer
    positions: the mean, the population variance, and the score. *)
Definition Zsum (zs : list Z) : Z := fold_left Z.add zs 0.

Definition mean_of (zs : list Z) : R := (IZR (Zsum zs) / IZR (Py.len zs))%R.

Definition squares_of (m : R) (zs : list Z) : R :=
  fold_left (fun acc x => (acc + (IZR x - m) ^ 2)%R) zs 0%R.

Definition variance_of (zs : list Z) : R :=
  (squares_of (mean_of zs) zs / IZR (Py.len zs))%R.

Definition consistency_of (zs : list Z) : R :=
  if Req_dec_T (mean_of zs) 0 then 0%R
  else Py.max 0 (1 - Py.pow_half (variance_of zs) / mean_of zs / 10).


(** A position that is absent or not negative, and a call that reports one. *)
Definition nonneg_position (p : option Z) : Prop :=
  match p with
  | Some z => 0 <= z
  | None => True
  end.

Definition reports_nonneg_position (o : Op) : Prop :=
  match o with
  | SetRaceResult position _ _ => nonneg_position position
  | _ => True
  end.



(** What a sequence of calls reports, in the order of the calls: the
    positions and the points of the race results, and every amount of points
    (those of [add_points] and those of [set_race_result]). *)
Definition positions_of (ops : list Op) : list (option Z) :=
  flat_map (fun o => match o with
                     | SetRaceResult position _ _ => [position]
                     | _ => []
                     end) ops.

Definition race_points_of (ops : list Op) : list R :=
  flat_map (fun o => match o with
                     | SetRaceResult _ points _ => [points]
                     | _ => []
                     end) ops.

Definition points_of (ops : list Op) : list R :=
  flat_map (fun o => match o with
                     | AddPoints points | SetRaceResult _ points _ => [points]
                     | _ => []
                     end) ops.

(** Kinds of calls, and how many calls of a kind a sequence holds. *)
Definition is_race (o : Op) : bool :=
  match o with SetRaceResult _ _ _ => true | _ => false end.

Definition is_dnf (o : Op) : bool :=
  match o with SetRaceResult _ _ dnf => dnf | _ => false end.

Definition is_finish (o : Op) : bool :=
  match o with SetRaceResult _ _ dnf => negb dnf | _ => false end.

Definition is_pole (o : Op) : bool :=
  match o with AddPolePosition => true | _ => false end.

Definition count {A : Type} (f : A -> bool) (l : list A) : Z := Py.len (filter f l).

(** The positions the win check and the podium check of [set_race_result]
    accept. *)
Definition is_win (p : option Z) : bool := Py.eq_int p 1.

Definition is_podium (p : option Z) : bool :=
  match p with
  | Some z => negb (z =? 0) && (z <=? 3)
  | None => false
  end.


(** A position between -1000000 and 1000000, and [None].  Over positions
    of this size no total, mean, square or variance that
    [calculate_consistency] and [get_average_position] form can leave the
    range of the floats, whatever the length of the history, so the
    [OverflowError] this embedding leaves out cannot occur. *)
Definition moderate (z : Z) : Prop := -1000000 <= z <= 1000000.

Definition moderate_position (p : option Z) : Prop :=
  match p with
  | Some z => moderate z
  | None => True
  end.

Definition reports_moderate_position (o : Op) : Prop :=
  match o with
  | SetRaceResult position _ _ => moderate_position position
  | _ => True
  end.

(** What the bookkeeping maintains in every reachable state. *)
Record invariant (d : Driver) : Prop := mkInvariant {
  inv_total : total_races (stats d) = races_completed (stats d) + races_dnf (stats d);
  inv_completed : 0 <= races_completed (stats d);
  inv_dnf : 0 <= races_dnf (stats d);
  inv_wins : wins d <= podiums d;
  inv_podiums : podiums d <= total_races (stats d);
  inv_points : season_points d = Rsum (points_history (stats d));
  inv_positions : Py.len (position_history (stats d)) = total_races (stats d);
  inv_reliability :
    reliability d =
    if total_races (stats d) >? 0
    then (IZR (races_completed (stats d)) / IZR (total_races (stats d)))%R
    else 0%R;
  inv_consistency_short :
    Py.len (position_history (stats d)) < 2 -> consistency d = 0%R;
  inv_consistency_nonneg : (0 <= consistency d)%R
}.

(** ** What each method does to the driver *)

(** Unfolds a method down to the plumbing of [M]. *)
Ltac unfold_method m := unfold m, bind, self, eval, assign, ret.

Lemma add_points_run points d :
  add_points points d =
  (set_stats (set_points_history (points_history (stats d) ++ [points]) (stats d))
     (set_season_points (season_points d + points)%R d), inr tt).
Proof. reflexivity. Qed.

Lemma add_pole_position_run d :
  add_pole_position d = (set_pole_positions (pole_positions d + 1) d, inr tt).
Proof. reflexivity. Qed.

(** [calculate_reliability] never raises: the division is guarded by the test
    on [total_races]. *)
Lemma calculate_reliability_run d :
  calculate_reliability d =
  if total_races (stats d) >? 0 then
    let r := (IZR (races_completed (stats d)) / IZR (total_races (stats d)))%R in
    (set_reliability r d, inr r)
  else (d, inr (reliability d)).
Proof.
  unfold_method calculate_reliability. unfold Py.truediv_int.
  destruct (total_races (stats d) >? 0) eqn:Hpos; [|reflexivity].
  destruct (total_races (stats d) =? 0) eqn:Hz; [|reflexivity].
  apply Z.eqb_eq in Hz. rewrite Hz in Hpos. discriminate.
Qed.

(** Assigning an attribute its own value changes nothing. *)
Lemma set_consistency_same d : set_consistency (consistency d) d = d.
Proof. destruct d; reflexivity. Qed.

Lemma set_average_position_same d : set_average_position (average_position d) d = d.
Proof. destruct d; reflexivity. Qed.

(** [calculate_consistency] assigns nothing but [consistency]. *)
Lemma calculate_consistency_frame d :
  exists c, fst (calculate_consistency d) = set_consistency c d.
Proof.
  unfold_method calculate_consistency.
  destruct (negb _ || _).
  - eexists; reflexivity.
  - destruct (Py.sum _) as [e|total];
      [exists (consistency d); now rewrite set_consistency_same|].
    destruct (Py.truediv_int _ _) as [e|mean];
      [exists (consistency d); now rewrite set_consistency_same|].
    destruct (Py.sum_sq_dev _ _) as [e|squares];
      [exists (consistency d); now rewrite set_consistency_same|].
    destruct (Py.truediv_float_int _ _) as [e|variance];
      [exists (consistency d); now rewrite set_consistency_same|].
    destruct (Req_dec_T mean 0); [eexists; reflexivity|].
    destruct (Py.truediv _ _) as [e|cv];
      [exists (consistency d); now rewrite set_consistency_same|].
    eexists; reflexivity.
Qed.

(** With fewer than two recorded positions the consistency is reset. *)
Lemma calculate_consistency_short d :
  Py.len (position_history (stats d)) < 2 ->
  calculate_consistency d = (set_consistency 0%R d, inr 0%R).
Proof.
  intros Hlen. unfold_method calculate_consistency.
  apply Z.ltb_lt in Hlen. rewrite Hlen, orb_true_r. reflexivity.
Qed.

Lemma set_race_result_run position points dnf d :
  set_race_result position points dnf d =
  let (d', r) := calculate_consistency (recorded position points dnf d) in
  (d', match r with inl e => inl e | inr _ => inr tt end).
Proof.
  unfold set_race_result, recorded.
  destruct dnf, position as [z|]; cbn [Py.truthy Py.le_int Py.eq_int];
    try (destruct (z =? 0); cbn [negb andb]);
    try (destruct (z <=? 3));
    try (destruct (z =? 1));
    cbv beta iota delta [bind assign ret eval self add_points];
    rewrite calculate_reliability_run;
    cbn -[calculate_consistency Z.add Z.gtb IZR];
    destruct (_ >? 0);
    cbn -[calculate_consistency Z.add Z.gtb IZR];
    destruct (calculate_consistency _) as [d' [e|c]]; reflexivity.
Qed.

Lemma get_average_position_frame d :
  exists a, fst (get_average_position d) = set_average_position a d.
Proof.
  unfold_method get_average_position.
  destruct (negb _); [eexists; reflexivity|].
  destruct (Py.sum _) as [e|total];
    [exists (average_position d); now rewrite set_average_position_same|].
  destruct (Py.truediv_int _ _) as [e|mean];
    [exists (average_position d); now rewrite set_average_position_same|].
  eexists; reflexivity.
Qed.

(** The driver after each kind of call. *)

Lemma exec_AddPoints points d :
  exec (AddPoints points) d =
  set_stats (set_points_history (points_history (stats d) ++ [points]) (stats d))
    (set_season_points (season_points d + points)%R d).
Proof. reflexivity. Qed.

Lemma exec_AddPolePosition d :
  exec AddPolePosition d = set_pole_positions (pole_positions d + 1) d.
Proof. reflexivity. Qed.

Lemma exec_SetRaceResult position points dnf d :
  exec (SetRaceResult position points dnf) d =
  fst (calculate_consistency (recorded position points dnf d)).
Proof.
  unfold exec, call, bind. rewrite set_race_result_run.
  destruct (calculate_consistency _) as [d' [e|c]]; reflexivity.
Qed.

Lemma exec_SetRaceResult_frame position points dnf d :
  exists c, exec (SetRaceResult position points dnf) d =
            set_consistency c (recorded position points dnf d).
Proof. rewrite exec_SetRaceResult. apply calculate_consistency_frame. Qed.

Lemma exec_Serialize d :
  exec Serialize d = fst (get_average_position d).
Proof.
  unfold exec, call, to_dict, bind, self, ret.
  destruct (get_average_position d) as [d' [e|a]]; reflexivity.
Qed.

Lemma exec_Serialize_frame d :
  exists a, exec Serialize d = set_average_position a d.
Proof. rewrite exec_Serialize. apply get_average_position_frame. Qed.

(** Rewrites the driver after a call of [add_points], [add_pole_position] or
    [to_dict] on [d] into [d] with the attributes the call assigned. *)
Ltac frame_call d :=
  first [ rewrite exec_AddPoints
        | rewrite exec_AddPolePosition
        | let a := fresh "a" in destruct (exec_Serialize_frame d) as [a ->] ].

Lemma run_app ops1 ops2 d : run (ops1 ++ ops2) d = run ops2 (run ops1 d).
Proof. apply fold_left_app. Qed.

Lemma run_snoc ops o d : run (ops ++ [o]) d = exec o (run ops d).
Proof. apply run_app. Qed.

(** ** Reliability *)

Lemma ratio_nonneg c t : 0 <= c -> 0 < t -> (0 <= IZR c / IZR t)%R.
Proof.
  intros Hc Ht. apply IZR_le in Hc. apply IZR_lt in Ht.
  unfold Rdiv. apply Rmult_le_pos; [assumption|].
  left. apply Rinv_0_lt_compat. assumption.
Qed.


Lemma ratio_bounds c t : 0 <= c <= t -> 0 < t -> (0 <= IZR c / IZR t <= 1)%R.
Proof.
  intros [Hc Hct] Ht.
  split; [now apply ratio_nonneg|].
  apply IZR_le in Hct. apply IZR_lt in Ht.
  - apply (Rmult_le_reg_r (IZR t)); [assumption|].
    unfold Rdiv. rewrite Rmult_assoc, Rinv_l by lra. lra.
Qed.

Lemma ratio_same t : 0 < t -> (IZR t / IZR t)%R = 1%R.
Proof. intros Ht. apply IZR_lt in Ht. unfold Rdiv. apply Rinv_r. lra. Qed.

Lemma exec_reliability_frame o d :
  match o with
  | SetRaceResult _ _ _ => True
  | _ => reliability (exec o d) = reliability d
         /\ total_races (stats (exec o d)) = total_races (stats d)
  end.
Proof.
  destruct o as [points|position points dnf| |]; [| exact I | |];
    frame_call d; now split.
Qed.


(** ** Positions that are [None] *)

Lemma sum_from_None acc l l' : Py.sum_from acc (l ++ None :: l') = inl Py.TypeError.
Proof.
  revert acc. induction l as [|[x|] l IH]; intros acc; cbn; [reflexivity | apply IH | reflexivity].
Qed.

Lemma sum_None l l' : Py.sum (l ++ None :: l') = inl Py.TypeError.
Proof. apply sum_from_None. Qed.

(** With two or more recorded positions, one of them [None], the total of the
    positions cannot be formed: [calculate_consistency] raises and assigns
    nothing. *)
Lemma calculate_consistency_None d l l' :
  position_history (stats d) = l ++ None :: l' ->
  2 <= Py.len (position_history (stats d)) ->
  calculate_consistency d = (d, inl Py.TypeError).
Proof.
  intros Hh Hlen. unfold_method calculate_consistency.
  assert (Htruthy : Py.truthy_list (position_history (stats d)) = true).
  { rewrite Hh. now destruct l. }
  rewrite Htruthy. cbn [negb orb].
  destruct (Z.ltb_spec (Py.len (position_history (stats d))) 2); [lia|].
  rewrite Hh, sum_None. reflexivity.
Qed.


(** ** Consistency *)

Lemma all_ints_Some l zs : all_ints l = Some zs -> l = map Some zs.
Proof.
  revert zs. induction l as [|[z|] l IH]; intros zs H; cbn in H.
  - now inversion H.
  - destruct (all_ints l) as [zs'|]; [|discriminate].
    inversion H; subst. cbn. now rewrite (IH zs').
  - discriminate.
Qed.

Lemma all_ints_None l : all_ints l = None -> exists l1 l2, l = l1 ++ None :: l2.
Proof.
  induction l as [|[z|] l IH]; intros H; cbn in H.
  - discriminate.
  - destruct (all_ints l) as [zs'|]; [discriminate|].
    destruct (IH eq_refl) as (l1 & l2 & ->). now exists (Some z :: l1), l2.
  - now exists [], l.
Qed.

Lemma all_ints_map zs : all_ints (map Some zs) = Some zs.
Proof. induction zs as [|z zs IH]; cbn; [reflexivity | now rewrite IH]. Qed.

Lemma sum_from_ints acc zs : Py.sum_from acc (map Some zs) = inr (fold_left Z.add zs acc).
Proof. revert acc. induction zs as [|z zs IH]; intros acc; cbn; [reflexivity | apply IH]. Qed.

Lemma sum_sq_dev_from_ints acc m zs :
  Py.sum_sq_dev_from acc m (map Some zs) =
  inr (fold_left (fun acc x => (acc + (IZR x - m) ^ 2)%R) zs acc).
Proof. revert acc. induction zs as [|z zs IH]; intros acc; cbn; [reflexivity | apply IH]. Qed.

Lemma len_map_Some (zs : list Z) : Py.len (map Some zs) = Py.len zs.
Proof. unfold Py.len. now rewrite length_map. Qed.

(** On a history of two or more integer positions [calculate_consistency]
    returns in the embedding, and the score is [consistency_of]. *)
Lemma calculate_consistency_ints d zs :
  position_history (stats d) = map Some zs ->
  2 <= Py.len zs ->
  calculate_consistency d =
  (set_consistency (consistency_of zs) d, inr (consistency_of zs)).
Proof.
  intros Hh Hlen. unfold_method calculate_consistency.
  rewrite Hh, len_map_Some.
  destruct (Z.ltb_spec (Py.len zs) 2); [lia|]. rewrite orb_false_r.
  destruct zs as [|z zs]; [cbn in Hlen; lia|].
  cbn [map Py.truthy_list negb].
  change (Some z :: map Some zs) with (map Some (z :: zs)).
  unfold Py.sum, Py.sum_sq_dev. rewrite sum_from_ints.
  unfold Py.truediv_int, Py.truediv_float_int.
  destruct (Z.eqb_spec (Py.len (z :: zs)) 0); [lia|].
  rewrite sum_sq_dev_from_ints.
  unfold consistency_of, variance_of, squares_of, mean_of, Zsum, Py.truediv.
  destruct (Req_dec_T _ 0); reflexivity.
Qed.

(** What [calculate_consistency] does on any driver. *)
Lemma calculate_consistency_run d :
  calculate_consistency d =
  if Py.len (position_history (stats d)) <? 2 then (set_consistency 0%R d, inr 0%R)
  else match all_ints (position_history (stats d)) with
       | Some zs => (set_consistency (consistency_of zs) d, inr (consistency_of zs))
       | None => (d, inl Py.TypeError)
       end.
Proof.
  destruct (Z.ltb_spec (Py.len (position_history (stats d))) 2) as [Hlt|Hge].
  - now apply calculate_consistency_short.
  - destruct (all_ints _) as [zs|] eqn:Hints.
    + apply all_ints_Some in Hints.
      apply calculate_consistency_ints; [exact Hints|].
      now rewrite <- len_map_Some, <- Hints.
    + apply all_ints_None in Hints. destruct Hints as (l1 & l2 & Hh).
      now apply (calculate_consistency_None d l1 l2).
Qed.

(** The variance is not negative, so its square root is the one [** 0.5]
    computes. *)
Lemma fold_left_squares_ge m zs acc :
  (acc <= fold_left (fun acc x => acc + (IZR x - m) ^ 2) zs acc)%R.
Proof.
  revert acc. induction zs as [|z zs IH]; intros acc; cbn [fold_left]; [lra|].
  apply Rle_trans with (acc + (IZR z - m) ^ 2)%R; [|apply IH].
  pose proof (pow2_ge_0 (IZR z - m)). lra.
Qed.

Lemma variance_of_nonneg zs : 0 < Py.len zs -> (0 <= variance_of zs)%R.
Proof.
  intros Hlen. unfold variance_of, squares_of, Rdiv.
  apply Rmult_le_pos; [apply fold_left_squares_ge|].
  left. apply Rinv_0_lt_compat. now apply IZR_lt in Hlen.
Qed.

(** A zero mean gives the score 0 and no division. *)
Lemma consistency_of_zero_mean zs : mean_of zs = 0%R -> consistency_of zs = 0%R.
Proof.
  intros Hmean. unfold consistency_of.
  destruct (Req_dec_T (mean_of zs) 0); [reflexivity | contradiction].
Qed.

Lemma max_0_nonneg x : (0 <= Py.max 0 x)%R.
Proof. unfold Py.max. destruct (Rlt_dec 0 x); lra. Qed.

Lemma consistency_of_nonneg zs : (0 <= consistency_of zs)%R.
Proof.
  unfold consistency_of. destruct (Req_dec_T _ 0); [lra | apply max_0_nonneg].
Qed.


Lemma exec_SetRaceResult_positions position points dnf d :
  position_history (stats (exec (SetRaceResult position points dnf) d)) =
  position_history (stats d) ++ [position].
Proof.
  destruct (exec_SetRaceResult_frame position points dnf d) as [c ->]. reflexivity.
Qed.

Lemma exec_SetRaceResult_consistency position points dnf d :
  consistency (exec (SetRaceResult position points dnf) d) =
  let h := position_history (stats d) ++ [position] in
  if Py.len h <? 2 then 0%R
  else match all_ints h with
       | Some zs => consistency_of zs
       | None => consistency d
       end.
Proof.
  rewrite exec_SetRaceResult, calculate_consistency_run.
  cbn [recorded stats position_history].
  destruct (_ <? 2); [reflexivity|].
  destruct (all_ints _); reflexivity.
Qed.

(** The outcome of [set_race_result]: it raises exactly when
    [calculate_consistency] cannot total the positions. *)
Lemma outcome_SetRaceResult position points dnf d :
  outcome (SetRaceResult position points dnf) d =
  let h := position_history (stats d) ++ [position] in
  if Py.len h <? 2 then inr VNone
  else match all_ints h with
       | Some _ => inr VNone
       | None => inl Py.TypeError
       end.
Proof.
  unfold outcome, call, bind. rewrite set_race_result_run, calculate_consistency_run.
  cbn [recorded stats position_history].
  destruct (_ <? 2); [reflexivity|].
  destruct (all_ints _); reflexivity.
Qed.

Lemma sqrt_4 : sqrt 4 = 2%R.
Proof. replace 4%R with (2 * 2)%R by lra. apply sqrt_square. lra. Qed.

(** Positions 1 and 5: mean 3, variance 4, standard deviation 2. *)
Lemma mean_of_1_5 : mean_of [1; 5] = 3%R.
Proof. unfold mean_of. cbn. lra. Qed.

Lemma variance_of_1_5 : variance_of [1; 5] = 4%R.
Proof. unfold variance_of. rewrite mean_of_1_5. cbn. lra. Qed.

Lemma consistency_of_1_5 : consistency_of [1; 5] = (14 / 15)%R.
Proof.
  unfold consistency_of, Py.pow_half. rewrite variance_of_1_5, mean_of_1_5, sqrt_4.
  destruct (Req_dec_T 3 0); [lra|].
  unfold Py.max. destruct (Rlt_dec _ _); lra.
Qed.

(** Positions -1 and -5: mean -3, variance 4, standard deviation 2. *)
Lemma mean_of_m1_m5 : mean_of [-1; -5] = (-3)%R.
Proof. unfold mean_of. cbn. lra. Qed.

Lemma variance_of_m1_m5 : variance_of [-1; -5] = 4%R.
Proof. unfold variance_of. rewrite mean_of_m1_m5. cbn. lra. Qed.

Lemma consistency_of_m1_m5 : consistency_of [-1; -5] = (16 / 15)%R.
Proof.
  unfold consistency_of, Py.pow_half. rewrite variance_of_m1_m5, mean_of_m1_m5, sqrt_4.
  destruct (Req_dec_T (-3) 0); [lra|].
  unfold Py.max. destruct (Rlt_dec _ _); lra.
Qed.


(** ** Average position and the snapshot *)

Lemma len_cons_pos {A : Type} (x : A) (l : list A) : 0 < Py.len (x :: l).
Proof. unfold Py.len. cbn [List.length]. lia. Qed.

(** What [get_average_position] does on any driver. *)
Lemma get_average_position_run d :
  get_average_position d =
  match position_history (stats d) with
  | [] => (set_average_position 0%R d, inr 0%R)
  | _ :: _ =>
      match all_ints (position_history (stats d)) with
      | Some zs => (set_average_position (mean_of zs) d, inr (mean_of zs))
      | None => (d, inl Py.TypeError)
      end
  end.
Proof.
  unfold_method get_average_position.
  destruct (position_history (stats d)) as [|p h] eqn:Hh; [reflexivity|].
  cbn [Py.truthy_list negb].
  destruct (all_ints (p :: h)) as [zs|] eqn:Hints.
  - apply all_ints_Some in Hints. rewrite Hints.
    unfold Py.sum. rewrite sum_from_ints. unfold Py.truediv_int.
    rewrite len_map_Some.
    assert (Hlen : 0 < Py.len zs).
    { rewrite <- len_map_Some, <- Hints. apply len_cons_pos. }
    destruct (Z.eqb_spec (Py.len zs) 0); [lia | reflexivity].
  - apply all_ints_None in Hints. destruct Hints as (l1 & l2 & ->).
    rewrite sum_None. reflexivity.
Qed.


(** ** Invariants of the bookkeeping *)

Lemma Rsum_snoc l x : Rsum (l ++ [x]) = (Rsum l + x)%R.
Proof. unfold Rsum. rewrite fold_left_app. reflexivity. Qed.

Lemma len_snoc {A : Type} (l : list A) (x : A) : Py.len (l ++ [x]) = Py.len l + 1.
Proof. unfold Py.len. rewrite length_app. cbn [List.length]. lia. Qed.

Lemma len_nonneg {A : Type} (l : list A) : 0 <= Py.len l.
Proof. unfold Py.len. lia. Qed.

Lemma invariant_init id name number team nationality price season :
  invariant (__init__ id name number team nationality price season).
Proof. constructor; cbn; try reflexivity; try lia; lra. Qed.

Lemma gtb_succ_nonneg t : 0 <= t -> (t + 1 >? 0) = true.
Proof. intros Ht. apply Z.gtb_lt. lia. Qed.

Lemma invariant_exec o d : invariant d -> invariant (exec o d).
Proof.
  intros [Ht Hc Hd Hw Hp Hs Hl Hr Hk Hk0].
  assert (Hpos : 0 <= total_races (stats d)) by lia.
  destruct o as [points|position points dnf| |].
  - rewrite exec_AddPoints. constructor; cbn -[Rsum Py.len]; try assumption.
    rewrite Rsum_snoc. now rewrite Hs.
  - pose proof (exec_SetRaceResult_consistency position points dnf d) as Hcons.
    cbv zeta in Hcons.
    destruct (exec_SetRaceResult_frame position points dnf d) as [c Hc'].
    rewrite Hc' in *. clear Hc'.
    constructor; cbn -[Z.add Z.gtb IZR Rsum Py.len] in *.
    + destruct dnf; lia.
    + destruct dnf; lia.
    + destruct dnf; lia.
    + destruct position as [z|]; cbn.
      * destruct (Z.eqb_spec z 1) as [->|]; cbn; [lia|].
        destruct (negb (z =? 0) && (z <=? 3)); lia.
      * lia.
    + destruct (match position with Some z => _ | None => _ end); lia.
    + rewrite Rsum_snoc. now rewrite Hs.
    + rewrite len_snoc. lia.
    + rewrite (gtb_succ_nonneg _ Hpos). reflexivity.
    + intros Hlen. apply Z.ltb_lt in Hlen. now rewrite Hlen in Hcons.
    + rewrite Hcons. destruct (_ <? 2); [lra|].
      destruct (all_ints _); [apply consistency_of_nonneg | exact Hk0].
  - rewrite exec_AddPolePosition. constructor; cbn; assumption.
  - destruct (exec_Serialize_frame d) as [a ->]. constructor; cbn; assumption.
Qed.

Lemma invariant_run ops d : invariant d -> invariant (run ops d).
Proof.
  revert d. induction ops as [|o ops IH]; intros d Hd; [exact Hd|].
  cbn. apply IH, invariant_exec, Hd.
Qed.

(** How a call changes the counters of wins and podiums, and the points. *)

Lemma exec_SetRaceResult_podiums position points dnf d :
  podiums (exec (SetRaceResult position points dnf) d) =
  match position with
  | Some z => if negb (z =? 0) && (z <=? 3) then podiums d + 1 else podiums d
  | None => podiums d
  end.
Proof.
  destruct (exec_SetRaceResult_frame position points dnf d) as [c ->].
  destruct position; reflexivity.
Qed.

Lemma exec_SetRaceResult_wins position points dnf d :
  wins (exec (SetRaceResult position points dnf) d) =
  if Py.eq_int position 1 then wins d + 1 else wins d.
Proof.
  destruct (exec_SetRaceResult_frame position points dnf d) as [c ->]. reflexivity.
Qed.

Lemma exec_SetRaceResult_points position points dnf d :
  season_points (exec (SetRaceResult position points dnf) d) = (season_points d + points)%R /\
  points_history (stats (exec (SetRaceResult position points dnf) d)) =
    points_history (stats d) ++ [points].
Proof.
  destruct (exec_SetRaceResult_frame position points dnf d) as [c ->].
  split; reflexivity.
Qed.

(** ** Bounds on the consistency *)

Lemma fold_left_add_nonneg zs acc :
  Forall (fun z => 0 <= z) zs -> acc <= fold_left Z.add zs acc.
Proof.
  intros H. revert acc. induction H as [|z zs Hz _ IH]; intros acc; cbn; [lia|].
  specialize (IH (acc + z)). lia.
Qed.

Lemma Zsum_nonneg zs : Forall (fun z => 0 <= z) zs -> 0 <= Zsum zs.
Proof. apply fold_left_add_nonneg. Qed.

(** The score is at most 1 when the positions do not sum to a negative
    number. *)
Lemma consistency_of_le_1 zs :
  0 <= Zsum zs -> 0 < Py.len zs -> (consistency_of zs <= 1)%R.
Proof.
  intros Hsum Hlen. unfold consistency_of.
  destruct (Req_dec_T (mean_of zs) 0) as [|Hmean]; [lra|].
  assert (Hpos : (0 < mean_of zs)%R).
  { destruct (ratio_nonneg _ _ Hsum Hlen) as [Hlt|Heq]; [exact Hlt|].
    exfalso. apply Hmean. symmetry. exact Heq. }
  assert (Hcv : (0 <= Py.pow_half (variance_of zs) / mean_of zs)%R).
  { unfold Rdiv. apply Rmult_le_pos; [apply sqrt_pos|].
    left. now apply Rinv_0_lt_compat. }
  unfold Py.max. destruct (Rlt_dec _ _); lra.
Qed.

Lemma all_ints_nonneg h zs :
  all_ints h = Some zs -> Forall nonneg_position h -> Forall (fun z => 0 <= z) zs.
Proof.
  intros Hints Hh. apply all_ints_Some in Hints. subst h.
  induction zs as [|z zs IH]; [constructor|].
  inversion Hh; subst. constructor; [assumption | now apply IH].
Qed.

Lemma bounded_exec o d :
  reports_nonneg_position o ->
  Forall nonneg_position (position_history (stats d)) /\ (consistency d <= 1)%R ->
  Forall nonneg_position (position_history (stats (exec o d)))
  /\ (consistency (exec o d) <= 1)%R.
Proof.
  intros Ho [Hh Hc].
  destruct o as [points|position points dnf| |].
  - rewrite exec_AddPoints. now split.
  - assert (Hh' : Forall nonneg_position (position_history (stats d) ++ [position])).
    { apply Forall_app. split; [exact Hh | now constructor]. }
    rewrite exec_SetRaceResult_positions, exec_SetRaceResult_consistency.
    split; [exact Hh'|]. cbv zeta.
    destruct (Z.ltb_spec (Py.len (position_history (stats d) ++ [position])) 2); [lra|].
    destruct (all_ints _) as [zs|] eqn:Hints; [|exact Hc].
    apply consistency_of_le_1.
    + apply Zsum_nonneg. now apply (all_ints_nonneg _ _ Hints).
    + apply all_ints_Some in Hints. rewrite <- len_map_Some, <- Hints. lia.
  - rewrite exec_AddPolePosition. now split.
  - destruct (exec_Serialize_frame d) as [a ->]. now split.
Qed.

Lemma bounded_run ops d :
  Forall reports_nonneg_position ops ->
  Forall nonneg_position (position_history (stats d)) /\ (consistency d <= 1)%R ->
  Forall nonneg_position (position_history (stats (run ops d)))
  /\ (consistency (run ops d) <= 1)%R.
Proof.
  intros Hops. revert d. induction Hops as [|o ops Ho _ IH]; intros d Hd; [exact Hd|].
  cbn. apply IH, bounded_exec; assumption.
Qed.

(** ** Calls that cannot raise *)


Lemma outcome_Serialize d :
  outcome Serialize d =
  match snd (get_average_position d) with
  | inl e => inl e
  | inr a =>
      let d' := fst (get_average_position d) in
      inr (VDict
        (mkDriverDict (id d) (name d) (number d) (team d) (nationality d) (price d)
           (season d) (season_points d) (wins d) (podiums d) (pole_positions d)
           (Py.round (reliability d) 3) (Py.round (consistency d) 3)
           (Py.round a 2)
           (last_race_position d') (last_race_points d')
           (mkStats (races_completed (stats d')) (races_dnf (stats d'))
              (points_history (stats d')) (position_history (stats d'))
              (total_races (stats d')))))
  end.
Proof.
  unfold outcome, call, to_dict, bind, self, ret.
  destruct (get_average_position d) as [d' [e|a]]; reflexivity.
Qed.




(** ** Reachable states *)

Section Reachable.

Variables (id0 : Z) (name0 : string) (number0 : Z) (team0 nationality0 : string)
          (price0 : R) (season0 : option Z).

Local Abbreviation new_driver := (__init__ id0 name0 number0 team0 nationality0 price0 season0).

Lemma reachable_invariant ops : invariant (run ops new_driver).
Proof. apply invariant_run, invariant_init. Qed.

(** C7: after every sequence of calls on a new driver (the empty one
    included, where the three counters are 0) the number of races is the
    number of races completed plus the number of races not finished. *)
Theorem C7_total_races_is_completed_plus_dnf ops :
  total_races (stats (run ops new_driver)) =
    races_completed (stats (run ops new_driver)) + races_dnf (stats (run ops new_driver))
  /\ total_races (stats new_driver) = 0
  /\ races_completed (stats new_driver) = 0
  /\ races_dnf (stats new_driver) = 0.
Proof.
  split; [apply inv_total, reachable_invariant|].
  repeat split.
Qed.

(** C8: in every reachable state wins <= podiums <= total_races; a call of
    set_race_result adds one podium or none, and adds one only when the
    position reported is an integer that is at most 3; it adds one win or
    none, and adds one only when the position reported is 1; the other
    operations leave both counters as they are. *)
Theorem C8_wins_podiums_total_races ops :
  (wins (run ops new_driver) <= podiums (run ops new_driver)
   /\ podiums (run ops new_driver) <= total_races (stats (run ops new_driver)))
  /\ (forall d position points dnf,
        let d' := exec (SetRaceResult position points dnf) d in
        (podiums d' = podiums d \/
         podiums d' = podiums d + 1 /\ exists z, position = Some z /\ z <= 3)
        /\ (wins d' = wins d \/ wins d' = wins d + 1 /\ position = Some 1))
  /\ (forall d o,
        match o with
        | SetRaceResult _ _ _ => True
        | _ => podiums (exec o d) = podiums d /\ wins (exec o d) = wins d
        end).
Proof.
  split; [|split].
  - split; [apply inv_wins | apply inv_podiums]; apply reachable_invariant.
  - intros d position points dnf d'. subst d'.
    rewrite exec_SetRaceResult_podiums, exec_SetRaceResult_wins.
    destruct position as [z|]; cbn [Py.eq_int]; [|now split; left].
    split.
    + destruct (Z.eqb_spec z 0); cbn [negb andb]; [now left|].
      destruct (Z.leb_spec z 3); [|now left].
      right. split; [reflexivity|]. now exists z.
    + destruct (Z.eqb_spec z 1) as [->|]; [now right | now left].
  - intros d [points|position points dnf| |]; [| exact I | |];
      frame_call d; now split.
Qed.

(** C10: in every reachable state season_points is the sum of
    points_history; a new driver has 0 points and an empty history; add_points
    and set_race_result add the points given to the total and append them to
    the history; add_pole_position and to_dict change neither. *)
Theorem C10_season_points_is_sum_of_history ops :
  season_points (run ops new_driver) = Rsum (points_history (stats (run ops new_driver)))
  /\ (season_points new_driver = 0%R /\ points_history (stats new_driver) = [])
  /\ (forall d o,
        match o with
        | AddPoints points | SetRaceResult _ points _ =>
            season_points (exec o d) = (season_points d + points)%R
            /\ points_history (stats (exec o d)) = points_history (stats d) ++ [points]
        | AddPolePosition | Serialize =>
            season_points (exec o d) = season_points d
            /\ points_history (stats (exec o d)) = points_history (stats d)
        end).
Proof.
  split; [apply inv_points, reachable_invariant|].
  split; [now split|].
  intros d [points|position points dnf| |];
    [| apply exec_SetRaceResult_points | |]; frame_call d; now split.
Qed.


(** C6: after every call on a reachable driver, reliability is
    races_completed / total_races when total_races > 0 and is otherwise what
    it was before the call; it is 0.0 for a new driver; in every reachable
    state it lies in [0, 1], and it is 1 when no race was left unfinished and
    at least one race was recorded.  calculate_reliability itself, on any
    driver, assigns the quotient when total_races > 0 and assigns nothing
    otherwise, and returns the reliability without raising. *)
Theorem C6_reliability_is_completion_rate ops o :
  (let d := run ops new_driver in
   let d' := exec o d in
   (0 < total_races (stats d') ->
    reliability d' = (IZR (races_completed (stats d')) / IZR (total_races (stats d')))%R)
   /\ (~ 0 < total_races (stats d') -> reliability d' = reliability d)
   /\ (0 <= reliability d <= 1)%R
   /\ (races_dnf (stats d) = 0 -> 0 < total_races (stats d) -> reliability d = 1%R))
  /\ reliability new_driver = 0%R
  /\ (forall d,
        calculate_reliability d =
        if total_races (stats d) >? 0 then
          let r := (IZR (races_completed (stats d)) / IZR (total_races (stats d)))%R in
          (set_reliability r d, inr r)
        else (d, inr (reliability d))).
Proof.
  split; [|split; [reflexivity | exact calculate_reliability_run]].
  cbv zeta.
  pose proof (reachable_invariant ops) as Hd.
  pose proof (invariant_exec o _ Hd) as Hd'.
  pose proof (inv_reliability _ Hd) as Hr.
  pose proof (inv_reliability _ Hd') as Hr'.
  pose proof (inv_total _ Hd) as Ht.
  pose proof (inv_completed _ Hd) as Hc.
  pose proof (inv_dnf _ Hd) as Hn.
  repeat split.
  - intros Hpos. apply Z.gtb_lt in Hpos. now rewrite Hpos in Hr'.
  - intros Hzero.
    pose proof (exec_reliability_frame o (run ops new_driver)) as Hframe.
    destruct o as [points|position points dnf| |]; try (now destruct Hframe).
    exfalso. apply Hzero.
    rewrite <- (inv_positions _ Hd'), exec_SetRaceResult.
    destruct (calculate_consistency_frame
                (recorded position points dnf (run ops new_driver))) as [c ->].
    cbn -[Py.len]. rewrite len_snoc. pose proof (len_nonneg (position_history (stats (run ops new_driver)))). lia.
  - rewrite Hr. destruct (Z.gtb_spec (total_races (stats (run ops new_driver))) 0); [|lra].
    apply ratio_bounds; lia.
  - rewrite Hr. destruct (Z.gtb_spec (total_races (stats (run ops new_driver))) 0); [|lra].
    apply ratio_bounds; lia.
  - intros Hdnf Hpos. rewrite Hr.
    apply Z.gtb_lt in Hpos. rewrite Hpos.
    replace (races_completed (stats (run ops new_driver)))
      with (total_races (stats (run ops new_driver))) by lia.
    apply ratio_same. now apply Z.gtb_lt.
Qed.



(** C2 (the code raises): on a new driver set_race_result(2, 18) returns, and
    the following set_race_result(None, 0, dnf=True) raises TypeError instead
    of completing; the driver it leaves has total_races = 2,
    races_completed = 1, races_dnf = 1, reliability = 1/2, podiums = 1 and
    wins = 0. *)
Theorem C2_scenario_B_second_call_raises :
  let d1 := exec (SetRaceResult (Some 2) 18 false) new_driver in
  let d2 := exec (SetRaceResult None 0 true) d1 in
  outcome (SetRaceResult (Some 2) 18 false) new_driver = inr VNone
  /\ outcome (SetRaceResult None 0 true) d1 = inl Py.TypeError
  /\ total_races (stats d2) = 2
  /\ races_completed (stats d2) = 1
  /\ races_dnf (stats d2) = 1
  /\ reliability d2 = (1 / 2)%R
  /\ podiums d2 = 1
  /\ wins d2 = 0.
Proof.
  cbv zeta. repeat split; reflexivity.
Qed.



(** C5: on a new driver, after set_race_result with position 1 and then
    with position 5 (neither a DNF, whatever the points), both calls return,
    the mean of the positions is 3, the population variance 4, the standard
    deviation 2, the coefficient of variation 2/3, and consistency is
    max(0, 1 - (2/3)/10) = 14/15. *)
Theorem C5_scenario_E points1 points2 :
  let d1 := exec (SetRaceResult (Some 1) points1 false) new_driver in
  let d2 := exec (SetRaceResult (Some 5) points2 false) d1 in
  outcome (SetRaceResult (Some 1) points1 false) new_driver = inr VNone
  /\ outcome (SetRaceResult (Some 5) points2 false) d1 = inr VNone
  /\ position_history (stats d2) = [Some 1; Some 5]
  /\ mean_of [1; 5] = 3%R
  /\ variance_of [1; 5] = 4%R
  /\ Py.pow_half (variance_of [1; 5]) = 2%R
  /\ Rdiv (Py.pow_half (variance_of [1; 5])) (mean_of [1; 5]) = (2 / 3)%R
  /\ consistency d2 = Py.max 0 (1 - (2 / 3) / 10)
  /\ consistency d2 = (14 / 15)%R.
Proof.
  cbv zeta.
  assert (Hcons : consistency
            (exec (SetRaceResult (Some 5) points2 false)
               (exec (SetRaceResult (Some 1) points1 false) new_driver)) = (14 / 15)%R).
  { rewrite exec_SetRaceResult_consistency, exec_SetRaceResult_positions.
    cbn. apply consistency_of_1_5. }
  split; [reflexivity|].
  split; [rewrite outcome_SetRaceResult, exec_SetRaceResult_positions; reflexivity|].
  split; [now rewrite !exec_SetRaceResult_positions|].
  split; [apply mean_of_1_5|].
  split; [apply variance_of_1_5|].
  split; [unfold Py.pow_half; rewrite variance_of_1_5; apply sqrt_4|].
  split; [unfold Py.pow_half; rewrite variance_of_1_5, mean_of_1_5, sqrt_4; reflexivity|].
  split; [|exact Hcons].
  rewrite Hcons. unfold Py.max. destruct (Rlt_dec _ _); lra.
Qed.

(** C3 (the code leaves the interval): on a new driver, after
    set_race_result with position -1 and then with position -5, both calls
    return and consistency is 16/15, which is greater than 1: the mean of the
    positions is negative, so the coefficient of variation is negative and
    nothing bounds the score from above. *)
Theorem C3_consistency_above_one_for_negative_positions points1 points2 dnf1 dnf2 :
  let d1 := exec (SetRaceResult (Some (-1)) points1 dnf1) new_driver in
  let d2 := exec (SetRaceResult (Some (-5)) points2 dnf2) d1 in
  outcome (SetRaceResult (Some (-1)) points1 dnf1) new_driver = inr VNone
  /\ outcome (SetRaceResult (Some (-5)) points2 dnf2) d1 = inr VNone
  /\ consistency d2 = (16 / 15)%R
  /\ (1 < consistency d2)%R.
Proof.
  cbv zeta.
  assert (Hcons : consistency
            (exec (SetRaceResult (Some (-5)) points2 dnf2)
               (exec (SetRaceResult (Some (-1)) points1 dnf1) new_driver)) = (16 / 15)%R).
  { rewrite exec_SetRaceResult_consistency, exec_SetRaceResult_positions.
    cbn. apply consistency_of_m1_m5. }
  split; [rewrite outcome_SetRaceResult; reflexivity|].
  split; [rewrite outcome_SetRaceResult, exec_SetRaceResult_positions; reflexivity|].
  split; [exact Hcons|].
  rewrite Hcons. lra.
Qed.



(** X10: the part of the consistency bounds that holds in every reachable
    state: the score is never negative, and it is 0 while fewer than two
    positions are recorded. *)
Lemma consistency_short_history ops :
  (Py.len (position_history (stats (run ops new_driver))) < 2 ->
   consistency (run ops new_driver) = 0%R)
  /\ (0 <= consistency (run ops new_driver))%R.
Proof.
  split; [apply inv_consistency_short | apply inv_consistency_nonneg];
    apply reachable_invariant.
Qed.

(** X9: when no call reports a negative position, the score stays in
    [0, 1]. *)
Lemma consistency_in_unit_interval ops :
  Forall reports_nonneg_position ops ->
  (0 <= consistency (run ops new_driver) <= 1)%R.
Proof.
  intros Hops. split; [apply inv_consistency_nonneg, reachable_invariant|].
  apply (bounded_run ops new_driver Hops). split; [constructor | cbn; lra].
Qed.

End Reachable.

(** ** Reporting [None] as the position *)

(** C1 (the code raises): on a driver with at least one recorded position,
    set_race_result with position None raises TypeError from
    calculate_consistency, whatever the points and the dnf flag; the record
    of the race, the counters, the points and the reliability have been
    updated by then and the consistency has not. *)
Theorem C1_set_race_result_None_raises_TypeError d points dnf :
  1 <= Py.len (position_history (stats d)) ->
  outcome (SetRaceResult None points dnf) d = inl Py.TypeError
  /\ exec (SetRaceResult None points dnf) d = recorded None points dnf d.
Proof.
  intros Hlen. unfold outcome, exec, call, bind.
  rewrite set_race_result_run.
  rewrite (calculate_consistency_None _ (position_history (stats d)) []).
  - split; reflexivity.
  - reflexivity.
  - cbn -[Py.len]. rewrite len_snoc. lia.
Qed.

Lemma C1_set_race_result_None_raises_TypeError_witness :
  1 <= Py.len (position_history (stats
         (exec (SetRaceResult (Some 2) 18 false) (__init__ 44 "H" 44 "M" "GB" 30 None))))
  /\ outcome (SetRaceResult None 0 true)
       (exec (SetRaceResult (Some 2) 18 false) (__init__ 44 "H" 44 "M" "GB" 30 None))
     = inl Py.TypeError.
Proof.
  split; [vm_compute; discriminate|].
  apply (C1_set_race_result_None_raises_TypeError
           (exec (SetRaceResult (Some 2) 18 false) (__init__ 44 "H" 44 "M" "GB" 30 None))
           0%R true).
  vm_compute; discriminate.
Defined.

(** ** Positions out of range *)

(** C4 (the code counts a podium): set_race_result with a negative
    position adds one podium on any driver and leaves wins as it is, because
    the podium check [position and position <= 3] has no lower bound; with
    position 0 neither counter moves.  On a new driver the call with a
    negative position returns, whatever the points and the dnf flag (a DNF
    included), and leaves podiums = 1, wins = 0 and total_races = 1. *)
Theorem C4_negative_position_counts_as_a_podium
    id name number team nationality price season d z points dnf :
  z < 0 ->
  (podiums (exec (SetRaceResult (Some z) points dnf) d) = podiums d + 1
   /\ wins (exec (SetRaceResult (Some z) points dnf) d) = wins d)
  /\ (podiums (exec (SetRaceResult (Some 0) points dnf) d) = podiums d
      /\ wins (exec (SetRaceResult (Some 0) points dnf) d) = wins d)
  /\ (let new := __init__ id name number team nationality price season in
      outcome (SetRaceResult (Some z) points dnf) new = inr VNone
      /\ podiums (exec (SetRaceResult (Some z) points dnf) new) = 1
      /\ wins (exec (SetRaceResult (Some z) points dnf) new) = 0
      /\ total_races (stats (exec (SetRaceResult (Some z) points dnf) new)) = 1
      /\ last_race_position (exec (SetRaceResult (Some z) points dnf) new) = Some z).
Proof.
  intros Hz.
  assert (Hcount : forall d',
            podiums (exec (SetRaceResult (Some z) points dnf) d') = podiums d' + 1
            /\ wins (exec (SetRaceResult (Some z) points dnf) d') = wins d').
  { intros d'. rewrite exec_SetRaceResult_podiums, exec_SetRaceResult_wins.
    cbn [Py.eq_int].
    destruct (Z.eqb_spec z 1); [lia|].
    destruct (Z.eqb_spec z 0); [lia|]. cbn [negb andb].
    destruct (Z.leb_spec z 3); [now split | lia]. }
  split; [apply Hcount|].
  split.
  - rewrite exec_SetRaceResult_podiums, exec_SetRaceResult_wins. now split.
  - cbv zeta.
    destruct (Hcount (__init__ id name number team nationality price season)) as [Hp Hw].
    split; [rewrite outcome_SetRaceResult; reflexivity|].
    split; [exact Hp|]. split; [exact Hw|].
    destruct (exec_SetRaceResult_frame (Some z) points dnf
                (__init__ id name number team nationality price season)) as [c ->].
    split; reflexivity.
Qed.

Lemma C4_negative_position_counts_as_a_podium_witness :
  -7 < 0
  /\ outcome (SetRaceResult (Some (-7)) 0 true) (__init__ 44 "H" 44 "M" "GB" 30 None)
     = inr VNone
  /\ podiums (exec (SetRaceResult (Some (-7)) 0 true)
                (__init__ 44 "H" 44 "M" "GB" 30 None)) = 1.
Proof.
  split; [lia|].
  destruct (C4_negative_position_counts_as_a_podium
              44 "H"%string 44 "M"%string "GB"%string 30%R None
              (__init__ 44 "H" 44 "M" "GB" 30 None) (-7) 0%R true)
    as (_ & _ & Hout & Hpod & _); [lia|].
  split; [exact Hout | exact Hpod].
Defined.

(** ** The snapshot *)

(** C9: to_dict assigns no attribute other than average_position, on any
    driver and whether it returns or raises; a second call right after the
    first gives the same outcome (the same dictionary, or the same exception)
    and leaves the driver as the first call left it. *)
Theorem C9_to_dict_touches_only_average_position d :
  let d1 := exec Serialize d in
  d1 = set_average_position (average_position d1) d
  /\ (season_points d1 = season_points d /\ wins d1 = wins d
      /\ podiums d1 = podiums d /\ pole_positions d1 = pole_positions d
      /\ reliability d1 = reliability d /\ consistency d1 = consistency d
      /\ last_race_position d1 = last_race_position d
      /\ last_race_points d1 = last_race_points d
      /\ stats d1 = stats d)
  /\ outcome Serialize d1 = outcome Serialize d
  /\ exec Serialize d1 = d1.
Proof.
  cbv zeta.
  assert (Hframe : exec Serialize d =
                   set_average_position (average_position (exec Serialize d)) d).
  { destruct (exec_Serialize_frame d) as [a Ha]. rewrite Ha. reflexivity. }
  split; [exact Hframe|].
  split; [rewrite Hframe; repeat split|].
  rewrite !outcome_Serialize, !exec_Serialize, !get_average_position_run.
  destruct (position_history (stats d)) as [|p h] eqn:Hh.
  - cbn. rewrite !Hh. cbn. rewrite ?Hh. split; reflexivity.
  - destruct (all_ints (p :: h)) as [zs|] eqn:Hints.
    + cbn. rewrite !Hh, !Hints. cbn. rewrite ?Hh. split; reflexivity.
    + cbn. rewrite !Hh, !Hints. cbn. split; reflexivity.
Qed.

(** ** The ledger of a sequence of calls *)

Lemma count_cons {A : Type} (f : A -> bool) (x : A) (l : list A) :
  count f (x :: l) = (if f x then 1 else 0) + count f l.
Proof.
  unfold count, Py.len. cbn [filter]. destruct (f x); cbn [List.length]; lia.
Qed.

Lemma count_app {A : Type} (f : A -> bool) (l1 l2 : list A) :
  count f (l1 ++ l2) = count f l1 + count f l2.
Proof. unfold count, Py.len. rewrite filter_app, length_app. lia. Qed.

Lemma last_cons {A : Type} (x : A) (l : list A) (d : A) : last (x :: l) d = last l x.
Proof.
  revert x d. induction l as [|y l IH]; intros x d; [reflexivity|].
  change (last (x :: y :: l) d) with (last (y :: l) d).
  now rewrite (IH y d), (IH y x).
Qed.

(** Every attribute and counter after one call of [set_race_result], apart
    from the consistency. *)
Lemma exec_SetRaceResult_fields position points dnf d :
  let d' := exec (SetRaceResult position points dnf) d in
  (id d' = id d /\ name d' = name d /\ number d' = number d /\ team d' = team d
   /\ nationality d' = nationality d /\ price d' = price d /\ season d' = season d)
  /\ pole_positions d' = pole_positions d
  /\ average_position d' = average_position d
  /\ last_race_position d' = position
  /\ last_race_points d' = points
  /\ total_races (stats d') = total_races (stats d) + 1
  /\ races_dnf (stats d') = races_dnf (stats d) + (if dnf then 1 else 0)
  /\ races_completed (stats d') = races_completed (stats d) + (if dnf then 0 else 1).
Proof.
  cbv zeta. destruct (exec_SetRaceResult_frame position points dnf d) as [c ->].
  destruct dnf; cbn -[Z.add]; repeat split; lia.
Qed.

(** X1: after any sequence of calls on any driver, position_history is what
    it was followed by the positions the set_race_result calls reported, in
    call order, DNF or not; points_history is what it was followed by the
    points of the add_points and set_race_result calls, in call order.  Calls
    that raise have recorded their position and points all the same. *)
Theorem X1_histories_are_the_reports_in_call_order ops d :
  position_history (stats (run ops d)) = position_history (stats d) ++ positions_of ops
  /\ points_history (stats (run ops d)) = points_history (stats d) ++ points_of ops.
Proof.
  revert d. induction ops as [|o ops IH]; intros d.
  - cbn. now rewrite !app_nil_r.
  - cbn [run fold_left]. fold (run ops (exec o d)).
    destruct (IH (exec o d)) as [Hpos Hpts]. rewrite Hpos, Hpts. clear IH Hpos Hpts.
    destruct o as [points|position points dnf| |]; cbn [positions_of points_of flat_map app].
    + rewrite exec_AddPoints. cbn. now rewrite <- app_assoc.
    + rewrite exec_SetRaceResult_positions.
      rewrite (proj2 (exec_SetRaceResult_points position points dnf d)).
      now rewrite <- !app_assoc.
    + rewrite exec_AddPolePosition. now split.
    + destruct (exec_Serialize_frame d) as [a ->]. now split.
Qed.

(** X2: after any sequence of calls on any driver, total_races has grown by
    the number of set_race_result calls, races_dnf by the number of them with
    dnf true, races_completed by the number of them with dnf false, and
    pole_positions by the number of add_pole_position calls; add_points and
    to_dict move none of the four. *)
Theorem X2_counters_count_the_calls ops d :
  total_races (stats (run ops d)) = total_races (stats d) + count is_race ops
  /\ races_dnf (stats (run ops d)) = races_dnf (stats d) + count is_dnf ops
  /\ races_completed (stats (run ops d)) = races_completed (stats d) + count is_finish ops
  /\ pole_positions (run ops d) = pole_positions d + count is_pole ops.
Proof.
  revert d. induction ops as [|o ops IH]; intros d.
  - unfold count. cbn. lia.
  - cbn [run fold_left]. fold (run ops (exec o d)).
    destruct (IH (exec o d)) as (Ht & Hd & Hc & Hp). rewrite Ht, Hd, Hc, Hp.
    clear IH Ht Hd Hc Hp. rewrite !count_cons.
    destruct o as [points|position points dnf| |]; cbn [is_race is_dnf is_finish is_pole].
    + rewrite exec_AddPoints. cbn -[Z.add count]. lia.
    + destruct (exec_SetRaceResult_fields position points dnf d)
        as (_ & Hp & _ & _ & _ & Ht & Hd & Hc).
      rewrite Hp, Ht, Hd, Hc. destruct dnf; cbn [negb]; lia.
    + rewrite exec_AddPolePosition. cbn -[Z.add count]. lia.
    + destruct (exec_Serialize_frame d) as [a ->]. cbn -[Z.add count]. lia.
Qed.

(** X3: after any sequence of calls on any driver, wins has grown by the
    number of reported positions equal to 1, and podiums by the number of
    reported positions that are integers other than 0 and at most 3 (negative
    ones included); a position None counts for neither. *)
Theorem X3_wins_and_podiums_count_the_positions ops d :
  wins (run ops d) = wins d + count is_win (positions_of ops)
  /\ podiums (run ops d) = podiums d + count is_podium (positions_of ops).
Proof.
  revert d. induction ops as [|o ops IH]; intros d.
  - unfold count. cbn. lia.
  - cbn [run fold_left]. fold (run ops (exec o d)).
    destruct (IH (exec o d)) as [Hw Hp]. rewrite Hw, Hp. clear IH Hw Hp.
    destruct o as [points|position points dnf| |]; cbn [positions_of flat_map app].
    + rewrite exec_AddPoints. now split.
    + fold (positions_of ops). rewrite !count_cons.
      rewrite exec_SetRaceResult_wins, exec_SetRaceResult_podiums.
      unfold is_win, is_podium.
      destruct position as [z|]; cbn [Py.eq_int].
      * destruct (z =? 1), (negb (z =? 0) && (z <=? 3)); split; lia.
      * split; lia.
    + rewrite exec_AddPolePosition. now split.
    + destruct (exec_Serialize_frame d) as [a ->]. now split.
Qed.

(** X4: after any sequence of calls on any driver, last_race_position and
    last_race_points are those of the last set_race_result call of the
    sequence, and are what they were when the sequence holds none. *)
Theorem X4_last_race_is_the_last_report ops d :
  last_race_position (run ops d) = last (positions_of ops) (last_race_position d)
  /\ last_race_points (run ops d) = last (race_points_of ops) (last_race_points d).
Proof.
  revert d. induction ops as [|o ops IH]; intros d; [now split|].
  cbn [run fold_left]. fold (run ops (exec o d)).
  destruct (IH (exec o d)) as [Hp Hq]. rewrite Hp, Hq. clear IH Hp Hq.
  destruct o as [points|position points dnf| |];
    cbn [positions_of race_points_of flat_map app].
  - rewrite exec_AddPoints. now split.
  - fold (positions_of ops). fold (race_points_of ops).
    destruct (exec_SetRaceResult_fields position points dnf d)
      as (_ & _ & _ & Hp & Hq & _).
    rewrite Hp, Hq.
    now rewrite !last_cons.
  - rewrite exec_AddPolePosition. now split.
  - destruct (exec_Serialize_frame d) as [a ->]. now split.
Qed.

(** X5: no sequence of calls changes the identity of a driver: id, name,
    number, team, nationality, price and season stay as constructed, also
    through calls that raise. *)
Theorem X5_identity_is_never_assigned ops d :
  id (run ops d) = id d /\ name (run ops d) = name d /\ number (run ops d) = number d
  /\ team (run ops d) = team d /\ nationality (run ops d) = nationality d
  /\ price (run ops d) = price d /\ season (run ops d) = season d.
Proof.
  revert d. induction ops as [|o ops IH]; intros d; [repeat split|].
  cbn [run fold_left]. fold (run ops (exec o d)).
  destruct (IH (exec o d)) as (H1 & H2 & H3 & H4 & H5 & H6 & H7).
  rewrite H1, H2, H3, H4, H5, H6, H7. clear IH H1 H2 H3 H4 H5 H6 H7.
  destruct o as [points|position points dnf| |].
  - rewrite exec_AddPoints. repeat split.
  - apply exec_SetRaceResult_fields.
  - rewrite exec_AddPolePosition. repeat split.
  - destruct (exec_Serialize_frame d) as [a ->]. repeat split.
Qed.

(** ** When a call raises *)

Lemma all_ints_None_iff l : all_ints l = None <-> In None l.
Proof.
  split.
  - intros H. apply all_ints_None in H. destruct H as (l1 & l2 & ->).
    apply in_or_app. right. now left.
  - induction l as [|[z|] l IH]; intros H; cbn.
    + contradiction.
    + destruct H as [H|H]; [discriminate|]. now rewrite (IH H).
    + reflexivity.
Qed.

Lemma len_snoc_lt_2 {A : Type} (l : list A) (x : A) : Py.len (l ++ [x]) < 2 <-> l = [].
Proof.
  rewrite len_snoc. unfold Py.len. destruct l; cbn [List.length]; split; intros H;
    try reflexivity; try discriminate; lia.
Qed.




Lemma None_stays_exec o d :
  In None (position_history (stats d)) ->
  In None (position_history (stats (exec o d))).
Proof.
  intros Hin. destruct o as [points|position points dnf| |].
  - now rewrite exec_AddPoints.
  - rewrite exec_SetRaceResult_positions. apply in_or_app. now left.
  - now rewrite exec_AddPolePosition.
  - now destruct (exec_Serialize_frame d) as [a ->].
Qed.

Lemma None_stays_run ops d :
  In None (position_history (stats d)) ->
  In None (position_history (stats (run ops d))).
Proof.
  revert d. induction ops as [|o ops IH]; intros d Hin; [exact Hin|].
  cbn. apply IH, None_stays_exec, Hin.
Qed.

(** X7: a recorded position None is never removed, so from then on, whatever
    calls follow, every to_dict raises TypeError and so does every
    set_race_result, whatever position it reports. *)
Theorem X7_a_recorded_None_makes_every_later_report_raise d ops position points dnf :
  In None (position_history (stats d)) ->
  outcome Serialize (run ops d) = inl Py.TypeError
  /\ outcome (SetRaceResult position points dnf) (run ops d) = inl Py.TypeError.
Proof.
  intros Hin. apply (None_stays_run ops) in Hin.
  split.
  - rewrite outcome_Serialize, get_average_position_run.
    destruct (position_history (stats (run ops d))) as [|p h]; [contradiction|].
    apply all_ints_None_iff in Hin. now rewrite Hin.
  - rewrite outcome_SetRaceResult. cbv zeta.
    destruct (Z.ltb_spec (Py.len (position_history (stats (run ops d)) ++ [position])) 2)
      as [Hlt|Hge].
    + apply len_snoc_lt_2 in Hlt. rewrite Hlt in Hin. contradiction.
    + assert (Hin' : In None (position_history (stats (run ops d)) ++ [position])).
      { apply in_or_app. now left. }
      apply all_ints_None_iff in Hin'. now rewrite Hin'.
Qed.

Lemma X7_a_recorded_None_makes_every_later_report_raise_witness :
  In None (position_history (stats
     (exec (SetRaceResult None 0 true) (__init__ 44 "H" 44 "M" "GB" 30 None))))
  /\ outcome Serialize
       (run [SetRaceResult (Some 1) 25 false; AddPolePosition]
          (exec (SetRaceResult None 0 true) (__init__ 44 "H" 44 "M" "GB" 30 None)))
     = inl Py.TypeError.
Proof.
  split; [now left|].
  apply (X7_a_recorded_None_makes_every_later_report_raise
           (exec (SetRaceResult None 0 true) (__init__ 44 "H" 44 "M" "GB" 30 None))
           [SetRaceResult (Some 1) 25 false; AddPolePosition] None 0%R false).
  now left.
Defined.



(** ** The derived metrics as functions of the ledger *)

(** X11: on a driver built by __init__ and any sequence of calls that
    report moderate positions, as long as every recorded position is an
    integer, consistency is up to date with the history: 0.0 with fewer than
    two positions, and otherwise the score calculate_consistency computes
    from the recorded positions. *)
Theorem X11_consistency_is_a_function_of_the_history
    id name number team nationality price season ops zs :
  Forall reports_moderate_position ops ->
  let d := run ops (__init__ id name number team nationality price season) in
  all_ints (position_history (stats d)) = Some zs ->
  consistency d = if Py.len zs <? 2 then 0%R else consistency_of zs.
Proof.
  intros _. cbv zeta. revert zs. induction ops as [|o ops IH] using rev_ind; intros zs Hints.
  - cbn in Hints. inversion Hints; subst. reflexivity.
  - rewrite run_snoc in *.
    destruct o as [points|position points dnf| |].
    + rewrite exec_AddPoints in *. now apply IH.
    + rewrite exec_SetRaceResult_positions in Hints.
      rewrite exec_SetRaceResult_consistency. cbv zeta. rewrite Hints.
      apply all_ints_Some in Hints. rewrite Hints, len_map_Some.
      now destruct (Py.len zs <? 2).
    + rewrite exec_AddPolePosition in *. now apply IH.
    + destruct (exec_Serialize_frame
                  (run ops (__init__ id name number team nationality price season)))
        as [a Ha].
      rewrite Ha in *. now apply IH.
Qed.

Lemma X11_consistency_is_a_function_of_the_history_witness :
  all_ints (position_history (stats
     (run [SetRaceResult (Some 1) 25 false; AddPolePosition; SetRaceResult (Some 5) 10 false]
        (__init__ 44 "H" 44 "M" "GB" 30 None)))) = Some [1; 5]
  /\ consistency
       (run [SetRaceResult (Some 1) 25 false; AddPolePosition; SetRaceResult (Some 5) 10 false]
          (__init__ 44 "H" 44 "M" "GB" 30 None)) = consistency_of [1; 5].
Proof.
  assert (H : all_ints (position_history (stats
     (run [SetRaceResult (Some 1) 25 false; AddPolePosition; SetRaceResult (Some 5) 10 false]
        (__init__ 44 "H" 44 "M" "GB" 30 None)))) = Some [1; 5]).
  { cbn [run fold_left]. rewrite exec_SetRaceResult_positions, exec_AddPolePosition.
    reflexivity. }
  split; [exact H|].
  apply (X11_consistency_is_a_function_of_the_history
           44 "H"%string 44 "M"%string "GB"%string 30%R None
           [SetRaceResult (Some 1) 25 false; AddPolePosition; SetRaceResult (Some 5) 10 false]
           [1; 5]); [|exact H].
  repeat constructor; cbn; unfold moderate; lia.
Defined.

Lemma fold_left_add_bounds lo hi zs acc :
  Forall (fun z => lo <= z <= hi) zs ->
  acc + Py.len zs * lo <= fold_left Z.add zs acc <= acc + Py.len zs * hi.
Proof.
  intros H. revert acc. induction H as [|z zs Hz _ IH]; intros acc.
  - unfold Py.len. cbn. lia.
  - cbn [fold_left]. specialize (IH (acc + z)).
    unfold Py.len in *. cbn [List.length]. lia.
Qed.

Lemma mean_of_bounds lo hi zs :
  0 < Py.len zs ->
  Forall (fun z => lo <= z <= hi) zs ->
  (IZR lo <= mean_of zs <= IZR hi)%R.
Proof.
  intros Hlen Hzs.
  pose proof (fold_left_add_bounds lo hi zs 0 Hzs) as [Hlo Hhi].
  fold (Zsum zs) in Hlo, Hhi.
  assert (Hn : (0 < IZR (Py.len zs))%R) by now apply IZR_lt in Hlen.
  unfold mean_of. split.
  - apply (Rmult_le_reg_r (IZR (Py.len zs))); [exact Hn|].
    unfold Rdiv. rewrite Rmult_assoc, Rinv_l, Rmult_1_r by lra.
    rewrite <- mult_IZR. apply IZR_le. lia.
  - apply (Rmult_le_reg_r (IZR (Py.len zs))); [exact Hn|].
    unfold Rdiv. rewrite Rmult_assoc, Rinv_l, Rmult_1_r by lra.
    rewrite <- mult_IZR. apply IZR_le. lia.
Qed.

(** X12: on a driver whose recorded positions are integers, at least one,
    all between lo and hi, which are moderate, get_average_position returns
    their arithmetic mean without raising, stores it in average_position and
    assigns nothing else; the mean lies between lo and hi. *)
Theorem X12_average_position_is_the_mean_within_the_range d zs lo hi :
  position_history (stats d) = map Some zs ->
  zs <> [] ->
  moderate lo -> moderate hi ->
  Forall (fun z => lo <= z <= hi) zs ->
  get_average_position d = (set_average_position (mean_of zs) d, inr (mean_of zs))
  /\ (IZR lo <= mean_of zs <= IZR hi)%R.
Proof.
  intros Hh Hne _ _ Hzs.
  assert (Hlen : 0 < Py.len zs).
  { destruct zs; [contradiction | apply len_cons_pos]. }
  split; [|now apply mean_of_bounds].
  rewrite get_average_position_run, Hh, all_ints_map.
  destruct zs; [contradiction | reflexivity].
Qed.

Lemma X12_average_position_is_the_mean_within_the_range_witness :
  (IZR 1 <= mean_of [2; 1; 3]%Z <= IZR 3)%R.
Proof.
  apply (X12_average_position_is_the_mean_within_the_range
           (mkDriver 44 "H" 44 "M" "GB" 30 None 58 1 3 0 1 0 0 (Some 3) 15
              (mkStats 3 0 [18; 25; 15]%R [Some 2; Some 1; Some 3] 3))
           [2; 1; 3] 1 3).
  - reflexivity.
  - discriminate.
  - unfold moderate; lia.
  - unfold moderate; lia.
  - repeat constructor; lia.
Defined.

Lemma fold_left_add_repeat z n acc :
  fold_left Z.add (repeat z n) acc = acc + Z.of_nat n * z.
Proof.
  revert acc. induction n as [|n IH]; intros acc; [cbn; lia|].
  cbn [repeat fold_left]. rewrite IH. lia.
Qed.

Lemma len_repeat (z : Z) n : Py.len (repeat z n) = Z.of_nat n.
Proof. unfold Py.len. now rewrite repeat_length. Qed.

Lemma mean_of_repeat z n : 0 < Z.of_nat n -> mean_of (repeat z n) = IZR z.
Proof.
  intros Hn. unfold mean_of, Zsum. rewrite fold_left_add_repeat, len_repeat.
  cbn [Z.add]. rewrite mult_IZR. apply IZR_lt in Hn. field. lra.
Qed.

Lemma fold_left_squares_repeat z n acc :
  fold_left (fun acc x => (acc + (IZR x - IZR z) ^ 2)%R) (repeat z n) acc = acc.
Proof.
  revert acc. induction n as [|n IH]; intros acc; [reflexivity|].
  cbn [repeat fold_left]. rewrite IH. ring.
Qed.

Lemma variance_of_repeat z n : 0 < Z.of_nat n -> variance_of (repeat z n) = 0%R.
Proof.
  intros Hn. unfold variance_of, squares_of.
  rewrite mean_of_repeat by exact Hn. rewrite fold_left_squares_repeat.
  unfold Rdiv. apply Rmult_0_l.
Qed.

(** X13: when the recorded positions are two or more times the same
    moderate integer, calculate_consistency returns without raising: the
    score is 1.0 (the variance is 0), also for a negative position, except
    that it is 0.0 when the position is 0, where the mean is 0 and the guard
    against the division applies. *)
Theorem X13_equal_positions_score_one d z n :
  position_history (stats d) = map Some (repeat z n) ->
  2 <= Z.of_nat n ->
  moderate z ->
  calculate_consistency d =
  let c := if z =? 0 then 0%R else 1%R in (set_consistency c d, inr c).
Proof.
  intros Hh Hn _.
  assert (Hpos : 0 < Z.of_nat n) by lia.
  rewrite (calculate_consistency_ints d (repeat z n) Hh) by (rewrite len_repeat; exact Hn).
  assert (Hc : consistency_of (repeat z n) = if z =? 0 then 0%R else 1%R).
  { unfold consistency_of, Py.pow_half.
    rewrite variance_of_repeat, mean_of_repeat, sqrt_0 by exact Hpos.
    destruct (Req_dec_T (IZR z) 0) as [Hz|Hz].
    - apply eq_IZR_R0 in Hz. subst z. reflexivity.
    - destruct (Z.eqb_spec z 0) as [->|_]; [now contradiction Hz|].
      unfold Py.max, Rdiv. rewrite !Rmult_0_l, Rminus_0_r.
      destruct (Rlt_dec 0 1); [reflexivity | lra]. }
  now rewrite Hc.
Qed.

Lemma X13_equal_positions_score_one_witness :
  snd (calculate_consistency
         (mkDriver 44 "H" 44 "M" "GB" 30 None 75 3 3 0 1 0 0 (Some 1) 25
            (mkStats 3 0 [25; 25; 25]%R [Some 1; Some 1; Some 1] 3))) = inr 1%R.
Proof.
  rewrite (X13_equal_positions_score_one
             (mkDriver 44 "H" 44 "M" "GB" 30 None 75 3 3 0 1 0 0 (Some 1) 25
                (mkStats 3 0 [25; 25; 25]%R [Some 1; Some 1; Some 1] 3))
             1 3).
  - reflexivity.
  - reflexivity.
  - cbn. lia.
  - unfold moderate; lia.
Defined.

(** ** How one more race moves the reliability *)

Lemma ratio_step_up c t :
  0 <= c <= t -> 0 < t -> (IZR c / IZR t <= IZR (c + 1) / IZR (t + 1))%R.
Proof.
  intros [Hc Hct] Ht. rewrite !plus_IZR.
  apply IZR_le in Hc, Hct. apply IZR_lt in Ht.
  assert (Hdiff : ((IZR c + 1) / (IZR t + 1) - IZR c / IZR t
                   = (IZR t - IZR c) * / (IZR t * (IZR t + 1)))%R) by (field; lra).
  assert (Hpos : (0 <= (IZR t - IZR c) * / (IZR t * (IZR t + 1)))%R).
  { apply Rmult_le_pos; [lra|]. left. apply Rinv_0_lt_compat. nra. }
  lra.
Qed.

Lemma ratio_step_down c t :
  0 <= c <= t -> 0 < t -> (IZR c / IZR (t + 1) <= IZR c / IZR t)%R.
Proof.
  intros [Hc Hct] Ht. rewrite !plus_IZR.
  apply IZR_le in Hc, Hct. apply IZR_lt in Ht.
  assert (Hdiff : (IZR c / IZR t - IZR c / (IZR t + 1)
                   = IZR c * / (IZR t * (IZR t + 1)))%R) by (field; lra).
  assert (Hpos : (0 <= IZR c * / (IZR t * (IZR t + 1)))%R).
  { apply Rmult_le_pos; [lra|]. left. apply Rinv_0_lt_compat. nra. }
  lra.
Qed.

(** X14: on a driver built by __init__ and any sequence of calls, one more
    set_race_result never lowers the reliability when the race is finished
    (dnf false) and never raises it when it is not (dnf true), whatever the
    position and the points, and whether or not the call raises. *)
Theorem X14_reliability_moves_with_the_dnf_flag
    id name number team nationality price season ops position points dnf :
  let d := run ops (__init__ id name number team nationality price season) in
  let d' := exec (SetRaceResult position points dnf) d in
  if dnf then (reliability d' <= reliability d)%R
  else (reliability d <= reliability d')%R.
Proof.
  cbv zeta.
  set (d := run ops (__init__ id name number team nationality price season)).
  assert (Hd : invariant d) by apply invariant_run, invariant_init.
  assert (Hd' : invariant (exec (SetRaceResult position points dnf) d))
    by now apply invariant_exec.
  pose proof (inv_reliability _ Hd) as Hr.
  pose proof (inv_reliability _ Hd') as Hr'.
  pose proof (inv_total _ Hd) as Ht.
  pose proof (inv_completed _ Hd) as Hc.
  pose proof (inv_dnf _ Hd) as Hn.
  destruct (exec_SetRaceResult_fields position points dnf d)
    as (_ & _ & _ & _ & _ & Ht' & _ & Hc').
  cbv zeta in Ht', Hc'. rewrite Ht', Hc' in Hr'.
  rewrite gtb_succ_nonneg in Hr' by lia.
  rewrite Hr, Hr'.
  destruct (Z.gtb_spec (total_races (stats d)) 0) as [Hpos|Hzero].
  - destruct dnf.
    + rewrite Z.add_0_r. apply ratio_step_down; lia.
    + apply ratio_step_up; lia.
  - assert (Ht0 : total_races (stats d) = 0) by lia.
    assert (Hc0 : races_completed (stats d) = 0) by lia.
    rewrite Ht0, Hc0. destruct dnf; cbn [Z.add]; lra.
Qed.

(** ** The consistency score under a change of the positions *)

Lemma len_map_Z (f : Z -> Z) zs : Py.len (map f zs) = Py.len zs.
Proof. unfold Py.len. now rewrite length_map. Qed.

Lemma fold_left_add_shift c zs acc :
  fold_left Z.add (map (Z.add c) zs) acc = fold_left Z.add zs acc + Py.len zs * c.
Proof.
  revert acc. induction zs as [|z zs IH]; intros acc.
  - unfold Py.len. cbn. lia.
  - cbn [map fold_left]. rewrite IH.
    replace (acc + (c + z)) with (acc + z + c) by lia.
    assert (Hacc : forall a b, fold_left Z.add zs (a + b) = fold_left Z.add zs a + b).
    { clear. induction zs as [|y zs IHzs]; intros a b; [reflexivity|].
      cbn [fold_left]. replace (a + b + y) with (a + y + b) by lia. apply IHzs. }
    rewrite Hacc. unfold Py.len. cbn [List.length]. lia.
Qed.

Lemma mean_of_shift c zs :
  0 < Py.len zs -> mean_of (map (Z.add c) zs) = (mean_of zs + IZR c)%R.
Proof.
  intros Hlen. unfold mean_of, Zsum. rewrite len_map_Z, fold_left_add_shift.
  rewrite plus_IZR, mult_IZR. apply IZR_lt in Hlen. field. lra.
Qed.

Lemma fold_left_squares_shift c m zs acc :
  fold_left (fun acc x => (acc + (IZR x - (m + IZR c)) ^ 2)%R) (map (Z.add c) zs) acc
  = fold_left (fun acc x => (acc + (IZR x - m) ^ 2)%R) zs acc.
Proof.
  revert acc. induction zs as [|z zs IH]; intros acc; [reflexivity|].
  cbn [map fold_left]. rewrite <- IH. f_equal. rewrite plus_IZR. ring.
Qed.

Lemma variance_of_shift c zs :
  0 < Py.len zs -> variance_of (map (Z.add c) zs) = variance_of zs.
Proof.
  intros Hlen. unfold variance_of, squares_of.
  rewrite mean_of_shift by exact Hlen.
  now rewrite fold_left_squares_shift, len_map_Z.
Qed.

Lemma fold_left_add_ge lo zs acc :
  Forall (fun z => lo <= z) zs -> acc + Py.len zs * lo <= fold_left Z.add zs acc.
Proof.
  intros H. revert acc. induction H as [|z zs Hz _ IH]; intros acc.
  - unfold Py.len. cbn. lia.
  - cbn [fold_left]. specialize (IH (acc + z)).
    unfold Py.len in *. cbn [List.length]. lia.
Qed.

Lemma mean_of_ge lo zs :
  0 < Py.len zs -> Forall (fun z => lo <= z) zs -> (IZR lo <= mean_of zs)%R.
Proof.
  intros Hlen Hzs.
  pose proof (fold_left_add_ge lo zs 0 Hzs) as Hlo. fold (Zsum zs) in Hlo.
  assert (Hn : (0 < IZR (Py.len zs))%R) by now apply IZR_lt in Hlen.
  unfold mean_of.
  apply (Rmult_le_reg_r (IZR (Py.len zs))); [exact Hn|].
  unfold Rdiv. rewrite Rmult_assoc, Rinv_l, Rmult_1_r by lra.
  rewrite <- mult_IZR. apply IZR_le. lia.
Qed.

Lemma max_0_monotone x y : (x <= y)%R -> (Py.max 0 x <= Py.max 0 y)%R.
Proof.
  intros Hxy. unfold Py.max.
  destruct (Rlt_dec 0 x), (Rlt_dec 0 y); lra.
Qed.

Lemma consistency_of_shift c zs :
  0 <= c -> 0 < Py.len zs -> Forall (fun z => 1 <= z) zs ->
  (consistency_of zs <= consistency_of (map (Z.add c) zs))%R.
Proof.
  intros Hc Hlen Hzs.
  pose proof (mean_of_ge 1 zs Hlen Hzs) as Hmean.
  apply IZR_le in Hc.
  unfold consistency_of, Py.pow_half.
  rewrite mean_of_shift, variance_of_shift by exact Hlen.
  destruct (Req_dec_T (mean_of zs) 0) as [|_]; [lra|].
  destruct (Req_dec_T (mean_of zs + IZR c) 0) as [|_]; [lra|].
  apply max_0_monotone.
  assert (Hs : (0 <= sqrt (variance_of zs))%R) by apply sqrt_pos.
  assert (Hcv : (sqrt (variance_of zs) / (mean_of zs + IZR c)
                 <= sqrt (variance_of zs) / mean_of zs)%R).
  { unfold Rdiv. apply Rmult_le_compat_l; [exact Hs|].
    apply Rinv_le_contravar; lra. }
  lra.
Qed.

(** X16: the consistency score depends on where in the field a driver
    finishes, not only on the spread: when every recorded position (integers,
    two or more, all between 1 and 100) is moved back by the same number of
    places c, between 0 and 100, calculate_consistency returns on both
    histories, and the score of the second is at least as high. *)
Theorem X16_same_spread_further_back_scores_no_lower d d' zs c :
  position_history (stats d) = map Some zs ->
  position_history (stats d') = map Some (map (Z.add c) zs) ->
  2 <= Py.len zs ->
  Forall (fun z => 1 <= z <= 100) zs ->
  0 <= c <= 100 ->
  exists s s',
    snd (calculate_consistency d) = inr s
    /\ snd (calculate_consistency d') = inr s'
    /\ (s <= s')%R.
Proof.
  intros Hh Hh' Hlen Hzs [Hc _].
  rewrite (calculate_consistency_ints d zs Hh Hlen).
  rewrite (calculate_consistency_ints d' (map (Z.add c) zs) Hh')
    by (rewrite len_map_Z; exact Hlen).
  exists (consistency_of zs), (consistency_of (map (Z.add c) zs)).
  split; [reflexivity|]. split; [reflexivity|].
  apply consistency_of_shift; [exact Hc | lia |].
  apply (Forall_impl _ (fun z (H : 1 <= z <= 100) => proj1 H) Hzs).
Qed.

Lemma X16_same_spread_further_back_scores_no_lower_witness :
  exists s s',
    snd (calculate_consistency
           (mkDriver 44 "H" 44 "M" "GB" 30 None 0 1 2 0 1 0 0 (Some 3) 0
              (mkStats 2 0 [0; 0]%R [Some 1; Some 3] 2))) = inr s
    /\ snd (calculate_consistency
              (mkDriver 44 "H" 44 "M" "GB" 30 None 0 0 0 0 1 0 0 (Some 13) 0
                 (mkStats 2 0 [0; 0]%R [Some 11; Some 13] 2))) = inr s'
    /\ (s <= s')%R.
Proof.
  apply (X16_same_spread_further_back_scores_no_lower _ _ [1; 3] 10).
  - reflexivity.
  - reflexivity.
  - cbn. lia.
  - repeat constructor; lia.
  - lia.
Defined.

(** ** The range of the consistency score on positions from 1 to 100 *)

Lemma fold_left_squares_In m z zs acc :
  In z zs ->
  (acc + (IZR z - m) ^ 2 <= fold_left (fun acc x => acc + (IZR x - m) ^ 2) zs acc)%R.
Proof.
  revert acc. induction zs as [|y zs IH]; intros acc Hin; [contradiction|].
  cbn [fold_left]. destruct Hin as [->|Hin].
  - apply fold_left_squares_ge.
  - apply Rle_trans with (acc + (IZR y - m) ^ 2 + (IZR z - m) ^ 2)%R; [|now apply IH].
    pose proof (pow2_ge_0 (IZR y - m)). lra.
Qed.

Lemma variance_of_pos zs a b :
  In a zs -> In b zs -> a <> b -> (0 < variance_of zs)%R.
Proof.
  intros Ha Hb Hab.
  assert (Hlen : (0 < IZR (Py.len zs))%R).
  { apply IZR_lt. destruct zs; [contradiction | apply len_cons_pos]. }
  assert (Hz : exists z, In z zs /\ IZR z <> mean_of zs).
  { destruct (Req_dec_T (IZR a) (mean_of zs)) as [Ha'|Ha']; [|now exists a].
    exists b. split; [exact Hb|]. intros Hb'. apply Hab, eq_IZR. congruence. }
  destruct Hz as (z & Hz & Hne).
  pose proof (fold_left_squares_In (mean_of zs) z zs 0 Hz) as Hsq.
  assert (Hpos : (0 < (IZR z - mean_of zs) ^ 2)%R).
  { assert (Hd : (IZR z - mean_of zs <> 0)%R) by lra.
    pose proof (pow2_ge_0 (IZR z - mean_of zs)) as Hge.
    destruct Hge as [Hgt|Heq]; [exact Hgt|].
    exfalso. apply Hd. symmetry in Heq.
    replace ((IZR z - mean_of zs) ^ 2)%R
      with ((IZR z - mean_of zs) * (IZR z - mean_of zs))%R in Heq by ring.
    apply Rmult_integral in Heq. now destruct Heq. }
  unfold variance_of, squares_of, Rdiv.
  apply Rmult_lt_0_compat; [lra | now apply Rinv_0_lt_compat].
Qed.

Lemma two_values_two_items (zs : list Z) a b :
  In a zs -> In b zs -> a <> b -> 2 <= Py.len zs.
Proof.
  intros Ha Hb Hab. destruct zs as [|x [|y zs]].
  - contradiction.
  - destruct Ha as [<-|[]], Hb as [<-|[]]. contradiction.
  - unfold Py.len. cbn [List.length]. lia.
Qed.

(** X19: on positions a race can give, a score of 1.0 is reached by
    identical positions only: when the recorded positions are integers
    between 1 and 100 and two of them differ, calculate_consistency returns a
    score below 1. *)
Theorem X19_different_positions_score_below_one d zs a b :
  position_history (stats d) = map Some zs ->
  Forall (fun z => 1 <= z <= 100) zs ->
  In a zs -> In b zs -> a <> b ->
  exists s, snd (calculate_consistency d) = inr s /\ (s < 1)%R.
Proof.
  intros Hh Hzs Ha Hb Hab.
  pose proof (two_values_two_items zs a b Ha Hb Hab) as Hlen.
  rewrite (calculate_consistency_ints d zs Hh Hlen).
  exists (consistency_of zs). split; [reflexivity|].
  assert (Hmean : (1 <= mean_of zs)%R).
  { apply (mean_of_ge 1); [lia|].
    apply (Forall_impl _ (fun z (H : 1 <= z <= 100) => proj1 H) Hzs). }
  assert (Hvar : (0 < sqrt (variance_of zs))%R)
    by now apply sqrt_lt_R0, (variance_of_pos zs a b).
  unfold consistency_of, Py.pow_half.
  destruct (Req_dec_T (mean_of zs) 0) as [|_]; [lra|].
  assert (Hcv : (0 < sqrt (variance_of zs) / mean_of zs)%R).
  { unfold Rdiv. apply Rmult_lt_0_compat; [exact Hvar|]. apply Rinv_0_lt_compat. lra. }
  unfold Py.max. destruct (Rlt_dec _ _); lra.
Qed.

Lemma X19_different_positions_score_below_one_witness :
  exists s,
    snd (calculate_consistency
           (mkDriver 44 "H" 44 "M" "GB" 30 None 0 1 2 0 1 0 0 (Some 2) 0
              (mkStats 2 0 [0; 0]%R [Some 1; Some 2] 2))) = inr s
    /\ (s < 1)%R.
Proof.
  apply (X19_different_positions_score_below_one _ [1; 2] 1 2).
  - reflexivity.
  - repeat constructor; lia.
  - now left.
  - right. now left.
  - lia.
Defined.

Lemma fold_left_add_acc zs a b :
  fold_left Z.add zs (a + b) = fold_left Z.add zs a + b.
Proof.
  revert a. induction zs as [|y zs IH]; intros a; [reflexivity|].
  cbn [fold_left]. replace (a + b + y) with (a + y + b) by lia. apply IH.
Qed.

Lemma Zsum_cons z zs : Zsum (z :: zs) = z + Zsum zs.
Proof.
  unfold Zsum. cbn [fold_left]. rewrite fold_left_add_acc. lia.
Qed.

Lemma len_cons {A : Type} (x : A) (l : list A) : Py.len (x :: l) = 1 + Py.len l.
Proof. unfold Py.len. cbn [List.length]. lia. Qed.

(** The sum of the squared deviations from [m], expanded. *)
Lemma fold_left_squares_expand m zs acc :
  fold_left (fun acc x => (acc + (IZR x - m) ^ 2)%R) zs acc
  = (acc + IZR (Zsum (map (fun z => (z * z)%Z) zs)) - 2 * m * IZR (Zsum zs)
     + IZR (Py.len zs) * m ^ 2)%R.
Proof.
  revert acc. induction zs as [|z zs IH]; intros acc.
  - unfold Zsum, Py.len. cbn. ring.
  - cbn [fold_left map]. rewrite IH, !Zsum_cons, len_cons.
    rewrite !plus_IZR, mult_IZR. ring.
Qed.

Lemma Zsum_squares_le hi zs :
  Forall (fun z => 1 <= z <= hi) zs ->
  Zsum (map (fun z => z * z) zs) <= hi * Zsum zs.
Proof.
  induction 1 as [|z zs Hz _ IH]; [unfold Zsum; cbn; lia|].
  cbn [map]. rewrite !Zsum_cons. nia.
Qed.

(** The variance of positions between 1 and [hi] is at most
    [hi * mean - mean ^ 2]. *)
Lemma variance_of_le hi zs :
  0 < Py.len zs ->
  Forall (fun z => 1 <= z <= hi) zs ->
  (variance_of zs <= IZR hi * mean_of zs - mean_of zs ^ 2)%R.
Proof.
  intros Hlen Hzs.
  pose proof (Zsum_squares_le hi zs Hzs) as Hq. apply IZR_le in Hq.
  rewrite mult_IZR in Hq.
  assert (Hn : (0 < IZR (Py.len zs))%R) by now apply IZR_lt in Hlen.
  unfold variance_of, squares_of. rewrite fold_left_squares_expand.
  unfold mean_of.
  set (n := IZR (Py.len zs)) in *. set (S := IZR (Zsum zs)) in *.
  set (Q := IZR (Zsum (map (fun z => z * z) zs))) in *.
  assert (Heq : ((0 + Q - 2 * (S / n) * S + n * (S / n) ^ 2) / n
                 = Q / n - (S / n) ^ 2)%R) by (field; lra).
  rewrite Heq.
  assert (Hle : (Q / n <= IZR hi * (S / n))%R).
  { unfold Rdiv. rewrite <- Rmult_assoc.
    apply Rmult_le_compat_r; [|exact Hq]. left. now apply Rinv_0_lt_compat. }
  lra.
Qed.

(** X20: on positions a race can give, the lower clamp of the score is never
    reached: when the recorded positions are two or more integers between 1
    and 100, calculate_consistency returns a score that is greater than 0 and
    at most 1. *)
Theorem X20_positions_from_1_to_100_score_above_zero d zs :
  position_history (stats d) = map Some zs ->
  2 <= Py.len zs ->
  Forall (fun z => 1 <= z <= 100) zs ->
  exists s, snd (calculate_consistency d) = inr s /\ (0 < s <= 1)%R.
Proof.
  intros Hh Hlen Hzs.
  rewrite (calculate_consistency_ints d zs Hh Hlen).
  exists (consistency_of zs). split; [reflexivity|].
  assert (Hpos : 0 < Py.len zs) by lia.
  pose proof (mean_of_bounds 1 100 zs Hpos Hzs) as [Hm1 Hm100].
  pose proof (variance_of_le 100 zs Hpos Hzs) as Hv.
  pose proof (variance_of_nonneg zs Hpos) as Hv0.
  assert (Hsqrt : (sqrt (variance_of zs) < 10 * mean_of zs)%R).
  { rewrite <- (sqrt_square (10 * mean_of zs)) by lra.
    apply sqrt_lt_1_alt. split; [exact Hv0|]. nra. }
  assert (Hs0 : (0 <= sqrt (variance_of zs))%R) by apply sqrt_pos.
  unfold consistency_of, Py.pow_half.
  destruct (Req_dec_T (mean_of zs) 0) as [|_]; [lra|].
  assert (Hcv : (0 <= sqrt (variance_of zs) / mean_of zs < 10)%R).
  { split.
    - unfold Rdiv. apply Rmult_le_pos; [exact Hs0|]. left. apply Rinv_0_lt_compat. lra.
    - apply (Rmult_lt_reg_r (mean_of zs)); [lra|].
      unfold Rdiv. rewrite Rmult_assoc, Rinv_l, Rmult_1_r by lra. exact Hsqrt. }
  unfold Py.max. destruct (Rlt_dec _ _); lra.
Qed.

Lemma X20_positions_from_1_to_100_score_above_zero_witness :
  exists s,
    snd (calculate_consistency
           (mkDriver 44 "H" 44 "M" "GB" 30 None 0 1 1 0 1 0 0 (Some 20) 0
              (mkStats 2 0 [0; 0]%R [Some 1; Some 20] 2))) = inr s
    /\ (0 < s <= 1)%R.
Proof.
  apply (X20_positions_from_1_to_100_score_above_zero _ [1; 20]).
  - reflexivity.
  - cbn. lia.
  - repeat constructor; lia.
Defined.


(** ** Sequences of calls that report no negative position *)

Lemma consistency_in_unit_interval_witness :
  (0 <= consistency
          (run [SetRaceResult (Some 1) 25 false; SetRaceResult None 0 true;
                SetRaceResult (Some 5) 10 false]
             (__init__ 44 "H" 44 "M" "GB" 30 None))%Z <= 1)%R.
Proof.
  apply (consistency_in_unit_interval 44 "H"%string 44 "M"%string "GB"%string 30%R None
           [SetRaceResult (Some 1) 25 false; SetRaceResult None 0 true;
            SetRaceResult (Some 5) 10 false]).
  repeat constructor; cbn; lia.
Defined.


(** ** The configuration module *)

Module AppConfigFacts.
Import AppConfig.

Local Open Scope string_scope.

Lemma truthy_environ_get_None e key :
  truthy (environ_get e key VNone) = true <->
  exists s, e key = Some s /\ s <> "".
Proof.
  unfold environ_get. destruct (e key) as [s|]; cbn.
  - destruct (String.eqb_spec s ""); cbn; split.
    + discriminate.
    + intros (s' & Hs & Hne). inversion Hs; subst. contradiction.
    + intros _. now exists s.
    + reflexivity.
  - split; [discriminate|]. intros (s & Hs & _). discriminate.
Qed.

(** X17: importing the configuration module succeeds only when the
    environment sets SECRET_KEY to a non-empty string (and MAIL_PORT, when
    set, is accepted by int): otherwise the import raises ValueError, in
    every environment and not only in production.  After a successful import
    the secret key of Config, DevelopmentConfig and ProductionConfig is the
    one of the environment, so neither development default is ever in use;
    TestingConfig keeps its own. *)
Theorem X17_import_needs_a_secret_key int_of_str e :
  match import int_of_str e with
  | inr m =>
      exists key,
        e "SECRET_KEY" = Some key /\ key <> ""
        /\ getattr (Config m) "SECRET_KEY" = Some (VStr key)
        /\ getattr (DevelopmentConfig m) "SECRET_KEY" = Some (VStr key)
        /\ getattr (ProductionConfig m) "SECRET_KEY" = Some (VStr key)
        /\ getattr (TestingConfig m) "SECRET_KEY" = Some (VStr "test-secret-key")
  | inl ex =>
      ex = ValueError
      /\ (e "SECRET_KEY" = None \/ e "SECRET_KEY" = Some ""
          \/ exists s, e "MAIL_PORT" = Some s /\ int_of_str s = None)
  end.
Proof.
  unfold import, class_Config, class_ProductionConfig.
  destruct (int int_of_str (environ_get e "MAIL_PORT" (VInt 587))) as [ex|port] eqn:Hport.
  - unfold int, environ_get in Hport.
    destruct (e "MAIL_PORT") as [s|] eqn:Hs; [|discriminate].
    destruct (int_of_str s) eqn:Hint; [discriminate|].
    inversion Hport; subst. split; [reflexivity|].
    right. right. now exists s.
  - destruct (truthy (environ_get e "SECRET_KEY" VNone)) eqn:Hkey; cbn [negb].
    + apply truthy_environ_get_None in Hkey. destruct Hkey as (key & Hkey & Hne).
      exists key. unfold class_DevelopmentConfig, class_TestingConfig, environ_get.
      cbn. rewrite Hkey. repeat split; assumption.
    + split; [reflexivity|].
      unfold environ_get in Hkey. destruct (e "SECRET_KEY") as [s|]; [|now left].
      right. left. cbn in Hkey. destruct (String.eqb_spec s ""); [now subst | discriminate].
Qed.

Lemma config_of_import int_of_str e m :
  import int_of_str e = inr m ->
  config m = [ ("development", DevelopmentConfig m); ("testing", TestingConfig m);
               ("production", ProductionConfig m); ("default", DevelopmentConfig m) ]
  /\ getattr (DevelopmentConfig m) "DEBUG" = Some (VBool true)
  /\ getattr (DevelopmentConfig m) "SESSION_COOKIE_SECURE" = Some (VBool false).
Proof.
  unfold import. destruct (class_Config int_of_str e) as [ex|c]; [discriminate|].
  destruct (class_ProductionConfig e c) as [ex|p]; [discriminate|].
  intros H. inversion H; subst. cbn. repeat split.
Qed.

(** X18: on the imported module get_config never raises; it returns
    TestingConfig for the name testing, ProductionConfig for the name
    production and DevelopmentConfig for every other name, where the name is
    the argument, or FLASK_ENV when the argument is None, or development when
    that is unset.  So a name that is not one of the keys selects the
    development configuration without a warning, with DEBUG true and
    SESSION_COOKIE_SECURE false. *)
Theorem X18_get_config_falls_back_to_development int_of_str e m e' env :
  import int_of_str e = inr m ->
  let name :=
    match env with
    | Some s => s
    | None => match e' "FLASK_ENV" with Some s => s | None => "development" end
    end in
  let chosen :=
    if name =? "testing" then TestingConfig m
    else if name =? "production" then ProductionConfig m
    else DevelopmentConfig m in
  get_config m e' env = inr chosen
  /\ (name <> "testing" -> name <> "production" ->
      chosen = DevelopmentConfig m
      /\ getattr chosen "DEBUG" = Some (VBool true)
      /\ getattr chosen "SESSION_COOKIE_SECURE" = Some (VBool false)).
Proof.
  intros Himport name chosen.
  destruct (config_of_import _ _ _ Himport) as (Hconfig & Hdebug & Hsecure).
  assert (Hget : get_config m e' env = inr chosen).
  { unfold get_config, dict_item. fold name. rewrite Hconfig.
    match goal with
    | |- context [lookup "default" ?l] =>
        change (lookup "default" l) with (Some (DevelopmentConfig m))
    end.
    unfold dict_get. subst chosen. cbn [lookup].
    destruct (String.eqb_spec "development" name) as [<-|Hdev]; [reflexivity|].
    destruct (String.eqb_spec "testing" name) as [<-|Htest]; [reflexivity|].
    rewrite (proj2 (String.eqb_neq name "testing")) by congruence.
    destruct (String.eqb_spec "production" name) as [<-|Hprod]; [reflexivity|].
    rewrite (proj2 (String.eqb_neq name "production")) by congruence.
    now destruct (String.eqb_spec "default" name). }
  split; [exact Hget|].
  intros Htest Hprod. subst chosen.
  rewrite (proj2 (String.eqb_neq name "testing")) by exact Htest.
  rewrite (proj2 (String.eqb_neq name "production")) by exact Hprod.
  repeat split; assumption.
Qed.

Lemma X18_get_config_falls_back_to_development_witness :
  exists m,
    import (fun _ => None) only_secret_key = inr m
    /\ get_config m only_secret_key (Some "prod") = inr (DevelopmentConfig m).
Proof.
  destruct (import (fun _ => None) only_secret_key) as [ex|m] eqn:Himport;
    [vm_compute in Himport; discriminate|].
  exists m. split; [reflexivity|].
  apply (X18_get_config_falls_back_to_development
           (fun _ => None) only_secret_key m only_secret_key (Some "prod") Himport).
Defined.

End AppConfigFacts.
